(** * Technology Matrix worker: a shallow embedding of the request handlers

    The repository is one Cloudflare Worker script kept in three revisions:
    the latest one ([Worker], routes [/api/items] and [/api/customers]) and
    two earlier ones that share the same entry point with a shared-secret
    gate in front of [/api/items] ([Gated], with their items handler in
    [Earlier]).  The inline browser script of the generated page carries
    its own copy of the classification function, its own escaping and the
    Save handler ([Page]).

    JavaScript values are embedded as they reach the handlers: strings are
    sequences of UTF-16 code units, numbers are IEEE 754 doubles (the
    kernel's primitive floats), request and response payloads are JSON
    values.  Built-ins whose algorithm is not part of the repository
    (numeric parsing of strings, number formatting, JSON text conversion,
    percent encoding, locale collation, the messages of the errors the
    runtime raises) are the fields of a [Host]; every statement below holds
    for all hosts.

    A handler ends with a response or with an exception that nothing
    caught.  Besides [requireEnv] and a rejected [fetch], two built-ins
    raise on data that reaches the handlers: [String] and [Number] on an
    object that cannot be converted to a primitive, and [new Response] on
    a status it refuses.  Where a pure function of the source is applied
    to such data by a handler, the embedding has the function twice: as
    the value it evaluates to when the conversion completes ([ToString],
    [ToNumber], [Worker.S], [Worker.json]) and as it runs ([js_String],
    [js_Number], [Worker.S_call], [Worker.json_call]); the handlers use
    the latter. *)

From Stdlib Require Import List ZArith NArith Bool String Ascii Floats Lia.
From Stdlib Require Import Sorted Permutation.
Import ListNotations.

Set Implicit Arguments.
Set Warnings "-register-all".
Open Scope Z_scope.

(** ** Strings *)

Module Str.

(** A JavaScript string: its UTF-16 code units. *)
Definition jsstring := list N.

(** The code units of an ASCII literal of the source. *)
Definition str (s : string) : jsstring :=
  map N_of_ascii (list_ascii_of_string s).

Fixpoint eqb (a b : jsstring) : bool :=
  match a, b with
  | [], [] => true
  | x :: a', y :: b' => N.eqb x y && eqb a' b'
  | _, _ => false
  end.

Definition is_empty (s : jsstring) : bool :=
  match s with [] => true | _ :: _ => false end.

(** White space and line terminators, the code units [trim] strips. *)
Definition is_ws (c : N) : bool :=
  ((9 <=? c) && (c <=? 13) || (c =? 32) || (c =? 160) || (c =? 5760)
   || (8192 <=? c) && (c <=? 8202) || (c =? 8232) || (c =? 8233)
   || (c =? 8239) || (c =? 8287) || (c =? 12288) || (c =? 65279))%N.

Fixpoint drop_ws (s : jsstring) : jsstring :=
  match s with
  | c :: s' => if is_ws c then drop_ws s' else s
  | [] => []
  end.

(** [String.prototype.trim] *)
Definition trim (s : jsstring) : jsstring :=
  rev (drop_ws (rev (drop_ws s))).

(** [String.prototype.startsWith] *)
Fixpoint startsWith (s prefix : jsstring) : bool :=
  match prefix, s with
  | [], _ => true
  | p :: prefix', c :: s' => N.eqb c p && startsWith s' prefix'
  | _ :: _, [] => false
  end.

(** [String.prototype.split] on a one-unit separator: the pieces between
    the separators, empty ones included. *)
Fixpoint split (sep : N) (s : jsstring) : list jsstring :=
  match s with
  | [] => [[]]
  | c :: s' =>
      if N.eqb c sep then [] :: split sep s'
      else match split sep s' with
           | piece :: rest => (c :: piece) :: rest
           | [] => [[c]]
           end
  end.

(** [Array.prototype.join] *)
Fixpoint join (sep : jsstring) (pieces : list jsstring) : jsstring :=
  match pieces with
  | [] => []
  | [p] => p
  | p :: rest => p ++ sep ++ join sep rest
  end.

(** [s.replace(/\/$/, "")]: one trailing slash is removed. *)
Definition strip_trailing_slash (s : jsstring) : jsstring :=
  match rev s with
  | c :: r => if N.eqb c 47 then rev r else s
  | [] => s
  end.

(** [s.replace(/c/g, by)] for a pattern that is the one unit [c]: every
    occurrence is replaced, left to right. *)
Definition replace_all (c : N) (by_ : jsstring) (s : jsstring) : jsstring :=
  flat_map (fun x => if N.eqb x c then by_ else [x]) s.

End Str.
Export Str.

(** ** Values *)

Inductive value : Type :=
| VUndefined
| VNull
| VBool (b : bool)
| VNum (x : float)
| VStr (s : jsstring)
| VArr (items : list value)
| VObj (fields : list (jsstring * value)).

(** A property of an object literal, keyed by an ASCII name. *)
Definition field (k : string) (v : value) : jsstring * value := (str k, v).

Fixpoint lookup {A : Type} (k : jsstring) (kvs : list (jsstring * A)) : option A :=
  match kvs with
  | [] => None
  | (k', v) :: rest => if Str.eqb k' k then Some v else lookup k rest
  end.

(** Member access [v.k] for the data names the handlers read: an own
    property of a plain object, [undefined] on anything else. *)
Definition get (v : value) (k : string) : value :=
  match v with
  | VObj fields =>
      match lookup (str k) fields with Some x => x | None => VUndefined end
  | _ => VUndefined
  end.

(** ToBoolean: what [!v], [v || w] and [v ? a : b] test. *)
Definition truthy (v : value) : bool :=
  match v with
  | VUndefined | VNull => false
  | VBool b => b
  | VNum x => negb (PrimFloat.is_zero x || PrimFloat.is_nan x)
  | VStr s => negb (is_empty s)
  | VArr _ | VObj _ => true
  end.

(** [v == null] *)
Definition is_nullish (v : value) : bool :=
  match v with VUndefined | VNull => true | _ => false end.

(** [Array.isArray] *)
Definition isArray (v : value) : bool :=
  match v with VArr _ => true | _ => false end.

(** [a >= b] and [a <= b] on numbers; both are false when either side is NaN. *)
Definition js_ge (a b : float) : bool := PrimFloat.leb b a.
Definition js_le (a b : float) : bool := PrimFloat.leb a b.

(** ** Host built-ins *)

Class Host : Type := {
  (** [Number(s)] on a string *)
  StringToNumber : jsstring -> float;
  (** [String(x)] on a number *)
  NumberToString : float -> jsstring;
  (** [JSON.parse(text)]; [None] when it raises a syntax error *)
  JSON_parse : jsstring -> option value;
  (** [JSON.stringify(v)] *)
  JSON_stringify : value -> jsstring;
  (** [JSON.stringify(v, null, 2)] *)
  JSON_stringify_indented : value -> jsstring;
  (** [encodeURIComponent(s)], on the well-formed text the handlers pass
      to it (parsed URLs, bindings, JSON text), where it does not raise *)
  encodeURIComponent : jsstring -> jsstring;
  (** [a.localeCompare(b)]: negative, zero or positive *)
  localeCompare : jsstring -> jsstring -> Z;
  (** the message of the [TypeError] raised when an object cannot be
      converted to a primitive value *)
  cannot_convert : jsstring;
  (** the message of the error [new Response] raises for a status it
      refuses *)
  invalid_status : Z -> jsstring
}.

Section Coercions.
Context {host : Host}.

(** Whether the conversion of [v] to a primitive completes.  JSON data
    holds no functions, so an object with a member of its own called
    [toString] shadows the inherited method with something that cannot be
    called, and [String(v)] and [Number(v)] raise a [TypeError]; a member
    called [valueOf] is passed over, the inherited [toString] then gives
    the result.  An array converts each element that is neither [null] nor
    [undefined], and raises when one of them does. *)
Fixpoint coercible (v : value) : bool :=
  match v with
  | VArr items => forallb (fun e => is_nullish e || coercible e) items
  | VObj fields =>
      negb (existsb (fun kv => Str.eqb (fst kv) (str "toString")) fields)
  | _ => true
  end.

(** The string [String(v)] evaluates to, for a [v] whose conversion
    completes ([coercible]).  Arrays join their elements with a comma,
    [null] and [undefined] elements giving the empty piece; a plain object
    is converted by the inherited [Object.prototype.toString]. *)
Fixpoint ToString (v : value) : jsstring :=
  match v with
  | VUndefined => str "undefined"
  | VNull => str "null"
  | VBool true => str "true"
  | VBool false => str "false"
  | VNum x => NumberToString x
  | VStr s => s
  | VArr items =>
      join (str ",")
        (map (fun e => if is_nullish e then [] else ToString e) items)
  | VObj _ => str "[object Object]"
  end.

(** The number [Number(v)] evaluates to, for a [v] whose conversion
    completes ([coercible]).  Arrays and objects are first turned into
    their string. *)
Definition ToNumber (v : value) : float :=
  match v with
  | VUndefined => PrimFloat.nan
  | VNull => 0%float
  | VBool true => 1%float
  | VBool false => 0%float
  | VNum x => x
  | VStr s => StringToNumber s
  | VArr _ | VObj _ => StringToNumber (ToString v)
  end.

End Coercions.


(** ** Requests, responses and the outside world *)

(** What a handler reads of the incoming request.  [headers] is the
    header list as sent: names in the case the client wrote them, a name
    possibly more than once.  [json_body] is the result of
    [req.json()]: the parsed body, or [None] when the promise rejects (no
    body, or text that is not JSON). *)
Record Request : Type := {
  method : jsstring;
  pathname : jsstring;
  searchParams : list (jsstring * jsstring);
  headers : list (jsstring * jsstring);
  json_body : option value
}.

(** A response as the script constructs it: status, the headers it sets
    itself, and the body text. *)
Record Response : Type := {
  status : Z;
  response_headers : list (jsstring * jsstring);
  body : jsstring
}.

(** The environment bindings of the worker: names bound to text. *)
Definition Env := list (jsstring * jsstring).

(** [env[k]] *)
Definition env_get (env : Env) (k : string) : value :=
  match lookup (str k) env with
  | Some s => VStr s
  | None => VUndefined
  end.

(** One call of the global [fetch] to the document store. *)
Record FetchCall : Type := {
  call_url : jsstring;
  call_method : jsstring;
  call_headers : list (jsstring * jsstring);
  call_body : option jsstring
}.

(** The store's answer: its status and its body text ([None] when reading
    the text fails). *)
Record StoreResponse : Type := {
  store_status : Z;
  store_text : option jsstring
}.

Inductive FetchResult : Type :=
| NetworkFailure
| Fetched (res : StoreResponse).

(** Everything outside the script that a request can observe: the store
    behind [fetch] and the clock read by [new Date().toISOString()]. *)
Record World : Type := {
  upstream : FetchCall -> FetchResult;
  now : jsstring
}.

Inductive Exception : Type :=
| Error (message : jsstring)
| FetchRejected.

(** How an async function ends: with a value, or with an exception that
    nothing caught. *)
Inductive Outcome (A : Type) : Type :=
| Returned (a : A)
| Threw (e : Exception).
Arguments Threw {A} e.

(** An async computation: run in a world, it ends in an outcome and
    leaves the list of store calls it made, oldest first. *)
Definition Eff (A : Type) : Type := World -> Outcome A * list FetchCall.

Definition ret {A : Type} (a : A) : Eff A := fun _ => (Returned a, []).

Definition throw {A : Type} (e : Exception) : Eff A := fun _ => (Threw e, []).

Definition bind {A B : Type} (m : Eff A) (k : A -> Eff B) : Eff B :=
  fun w =>
    match m w with
    | (Returned a, log) => let (r, log') := k a w in (r, log ++ log')
    | (Threw e, log) => (Threw e, log)
    end.

Notation "x <- m ;; k" := (bind m (fun x => k))
  (at level 61, m at next level, right associativity).
Notation "' pat <- m ;; k" := (bind m (fun x => match x with pat => k end))
  (at level 61, pat pattern, m at next level, right associativity).

(** The global [fetch]. *)
Definition global_fetch (call : FetchCall) : Eff StoreResponse :=
  fun w =>
    match upstream w call with
    | Fetched res => (Returned res, [call])
    | NetworkFailure => (Threw FetchRejected, [call])
    end.

(** [new Date().toISOString()] *)
Definition current_time : Eff jsstring := fun w => (Returned (now w), []).

(** [res.ok] *)
Definition ok (res : StoreResponse) : bool :=
  (200 <=? store_status res) && (store_status res <=? 299).

(** [url.searchParams.get(k) || ""] *)
Definition search_param (req : Request) (k : string) : jsstring :=
  match lookup (str k) (searchParams req) with
  | Some s => s
  | None => []
  end.

(** [url.pathname.split("/").filter(Boolean)] *)
Definition path_parts (req : Request) : list jsstring :=
  filter (fun p => negb (is_empty p)) (split 47 (pathname req)).

(** [a || b] *)
Definition js_or (a b : value) : value := if truthy a then a else b.

(** ASCII lower case, the form in which header names are compared. *)
Definition lower (s : jsstring) : jsstring :=
  map (fun c => if ((65 <=? c) && (c <=? 90))%N then (c + 32)%N else c) s.

(** The white space a header value is held without: tab, line feed,
    carriage return and space at either end. *)
Definition is_http_ws (c : N) : bool :=
  ((c =? 9) || (c =? 10) || (c =? 13) || (c =? 32))%N.

Fixpoint drop_http_ws (s : jsstring) : jsstring :=
  match s with
  | c :: s' => if is_http_ws c then drop_http_ws s' else s
  | [] => []
  end.

Definition header_value (s : jsstring) : jsstring :=
  rev (drop_http_ws (rev (drop_http_ws s))).

(** [headers.get(name)]: header names match whatever their case, and the
    values of a name that occurs more than once are joined by a comma and
    a space, in the order received; [None] stands for [null]. *)
Definition headers_get (headers : list (jsstring * jsstring)) (name : string)
  : option jsstring :=
  match filter (fun h => Str.eqb (lower (fst h)) (lower (str name))) headers with
  | [] => None
  | found => Some (join (str ", ") (map (fun h => header_value (snd h)) found))
  end.

(** ** Conversions and constructors that can raise *)

Section Raising.
Context {host : Host}.

(** [String(v)] as it runs. *)
Definition js_String (v : value) : Eff jsstring :=
  if coercible v then ret (ToString v) else throw (Error cannot_convert).

(** [Number(v)] as it runs. *)
Definition js_Number (v : value) : Eff float :=
  if coercible v then ret (ToNumber v) else throw (Error cannot_convert).

(** The statuses that allow no body: 101, 103, 204, 205 and 304. *)
Definition null_body_status (status : Z) : bool :=
  (status =? 101) || (status =? 103) || (status =? 204) || (status =? 205)
  || (status =? 304).

(** The statuses [new Response(text, { status })] accepts: within 200 to
    599, and not one that allows no body. *)
Definition status_accepted (status : Z) : bool :=
  (200 <=? status) && (status <=? 599) && negb (null_body_status status).

(** [new Response(body, { status, headers })] with a text body: a
    [RangeError] for a status outside 200 to 599, a [TypeError] for one
    that allows no body. *)
Definition new_Response (body : jsstring) (status : Z)
    (headers : list (jsstring * jsstring)) : Eff Response :=
  if status_accepted status
  then ret {| status := status; response_headers := headers; body := body |}
  else throw (Error (invalid_status status)).

End Raising.

(** ** Collections used by the customer summary *)

(** A [Map] from strings to counts, in insertion order. *)
Definition CountMap := list (jsstring * Z).

(** [map.set(k, v)]: an existing key keeps its place. *)
Fixpoint map_set (k : jsstring) (v : Z) (m : CountMap) : CountMap :=
  match m with
  | [] => [(k, v)]
  | (k', v') :: m' =>
      if Str.eqb k' k then (k', v) :: m' else (k', v') :: map_set k v m'
  end.

(** [Array.prototype.sort] with a comparator.  The built-in is a stable
    sort; for a consistent comparator its result is the one computed here,
    by inserting each element before the first later element that does not
    precede it. *)
Fixpoint sort_insert {A : Type} (cmp : A -> A -> Z) (x : A) (l : list A) : list A :=
  match l with
  | [] => [x]
  | y :: l' => if cmp x y <=? 0 then x :: y :: l' else y :: sort_insert cmp x l'
  end.

Definition sort {A : Type} (cmp : A -> A -> Z) (l : list A) : list A :=
  fold_right (sort_insert cmp) [] l.

(** The number a count is stored as; counts are whole and far below 2^53,
    where adding one is exact. *)
Definition number_of_count (c : Z) : float :=
  PrimFloat.of_uint63 (Uint63.of_Z c).

(** ** The classification result *)

Record TIME : Type := { code : jsstring; label : jsstring }.

(** ** The worker, latest revision *)

Module Worker.
Section WithHost.
Context {host : Host}.

(** The response [json(obj, status)] returns when [new Response] accepts
    the status; no call site passes extra headers. *)
Definition json (obj : value) (status : Z) : Response :=
  {| status := status;
     response_headers :=
       [(str "content-type", str "application/json; charset=utf-8")];
     body := JSON_stringify_indented obj |}.

(** [json(obj, status)] as it runs: the response is made by
    [new Response], which raises for a status it refuses. *)
Definition json_call (obj : value) (status : Z) : Eff Response :=
  new_Response (JSON_stringify_indented obj) status
    [(str "content-type", str "application/json; charset=utf-8")].

Definition computeTIME (technicalFit functionalFit : value) : TIME :=
  let techHigh := js_ge (ToNumber technicalFit) 4 in
  let funcHigh := js_ge (ToNumber functionalFit) 4 in
  if techHigh && funcHigh then {| code := str "I"; label := str "Invest" |}
  else if negb techHigh && funcHigh then {| code := str "M"; label := str "Migrate" |}
  else if techHigh && negb funcHigh then {| code := str "T"; label := str "Tolerate" |}
  else {| code := str "E"; label := str "Eliminate" |}.

Definition requireEnv (env : Env) (keys : list string) : Eff unit :=
  let missing := filter (fun k => negb (truthy (env_get env k))) keys in
  match missing with
  | [] => ret tt
  | _ :: _ =>
      throw (Error (str "Missing env vars: " ++ join (str ", ") (map str missing)))
  end.

Definition escapeHtml (s : value) : jsstring :=
  replace_all 34 (str "&quot;")
    (replace_all 62 (str "&gt;")
       (replace_all 60 (str "&lt;")
          (replace_all 38 (str "&amp;") (ToString s)))).

(** The [init] argument of [restdbFetch]. *)
Record FetchInit : Type := {
  init_method : jsstring;
  init_body : option jsstring;
  init_headers : list (jsstring * jsstring)
}.

(** The call [restdbFetch] hands to the global [fetch]. *)
Definition store_call (env : Env) (pathWithQuery : jsstring) (init : FetchInit)
  : FetchCall :=
  let base := strip_trailing_slash (ToString (env_get env "RESTDB_BASE")) in
  let url := base ++ pathWithQuery in
  let headers :=
    [(str "Content-Type", str "application/json");
     (str "x-apikey", ToString (env_get env "RESTDB_API_KEY"))]
    ++ init_headers init in
  {| call_url := url;
     call_method := init_method init;
     call_headers := headers;
     call_body := init_body init |}.

(** The [data] that [restdbFetch] reads off the store's answer: nothing
    for an empty or unreadable body, the parsed JSON when the text parses,
    the raw text otherwise. *)
Definition store_data (res : StoreResponse) : value :=
  let text := match store_text res with Some t => t | None => [] end in
  if is_empty text then VNull
  else match JSON_parse text with
       | Some v => v
       | None => VStr text
       end.

Definition restdbFetch (env : Env) (pathWithQuery : jsstring) (init : FetchInit)
  : Eff (StoreResponse * value) :=
  _ <- requireEnv env ["RESTDB_BASE"; "RESTDB_COLLECTION"; "RESTDB_API_KEY"]%string ;;
  res <- global_fetch (store_call env pathWithQuery init) ;;
  ret (res, store_data res).

(** The string [S(v)] evaluates to in the create branch,
    [v == null ? "" : String(v).trim()], for a [v] whose conversion
    completes. *)
Definition S (v : value) : jsstring :=
  if is_nullish v then [] else trim (ToString v).

(** [S(v)] as it runs. *)
Definition S_call (v : value) : Eff jsstring :=
  if is_nullish v then ret []
  else s <- js_String v ;; ret (trim s).

(** [x || null] on a string *)
Definition or_null (s : jsstring) : value :=
  if is_empty s then VNull else VStr s.

(** The filter object [q] of the list branch. *)
Definition list_filter (customerName customerId category : jsstring)
  : list (jsstring * value) :=
  (if is_empty customerName then [] else [field "customerName" (VStr customerName)])
  ++ (if is_empty customerName && negb (is_empty customerId)
      then [field "customerId" (VStr customerId)] else [])
  ++ (if is_empty category then [] else [field "category" (VStr category)]).

(** The query string [qParam] of the list branch. *)
Definition list_query (q : list (jsstring * value)) : jsstring :=
  let sort := encodeURIComponent (JSON_stringify (VObj [field "createdAt" (VNum (-1)%float)])) in
  match q with
  | _ :: _ =>
      str "?q=" ++ encodeURIComponent (JSON_stringify (VObj q)) ++ str "&sort=" ++ sort
  | [] => str "?sort=" ++ sort
  end.

(** The document [doc] that the create branch builds, as a function of
    the request body and the time of the request: each member holds what
    the conversions of the branch evaluate to when they complete. *)
Definition create_doc (body : value) (now : jsstring) : value :=
  let technicalFit := ToNumber (get body "technicalFit") in
  let functionalFit := ToNumber (get body "functionalFit") in
  let time := computeTIME (VNum technicalFit) (VNum functionalFit) in
  VObj [field "customerName" (VStr (S (get body "customerName")));
        field "customerId" (or_null (S (get body "customerId")));
        field "category" (VStr (S (get body "category")));
        field "solution" (VStr (S (get body "solution")));
        field "vendor" (VStr (S (get body "vendor")));
        field "notes" (VStr (S (get body "notes")));
        field "technicalFit" (VNum technicalFit);
        field "functionalFit" (VNum functionalFit);
        field "timeCode" (VStr (code time));
        field "timeLabel" (VStr (label time));
        field "dateImplemented" (or_null (S (get body "dateImplemented")));
        field "contractExpiration" (or_null (S (get body "contractExpiration")));
        field "createdAt" (VStr now);
        field "updatedAt" (VStr now)].

Definition handleItems (req : Request) (env : Env) : Eff Response :=
  let baseCol := ToString (js_or (env_get env "RESTDB_COLLECTION") (VStr [])) in
  if is_empty baseCol
  then json_call (VObj [field "ok" (VBool false);
                        field "error" (VStr (str "Missing RESTDB_COLLECTION"))]) 500
  else
  let id := nth_error (path_parts req) 2 in
  let no_id := match id with None => true | Some _ => false end in
  let col := encodeURIComponent baseCol in
  if Str.eqb (method req) (str "GET") && no_id then
    let customerName := trim (search_param req "customerName") in
    let customerId := trim (search_param req "customerId") in
    let category := trim (search_param req "category") in
    let q := list_filter customerName customerId category in
    '(res, data) <- restdbFetch env (str "/rest/" ++ col ++ list_query q)
                      {| init_method := str "GET"; init_body := None;
                         init_headers := [] |} ;;
    if negb (ok res)
    then json_call (VObj [field "ok" (VBool false); field "error" data])
                (store_status res)
    else json_call (VObj [field "ok" (VBool true);
                          field "items" (if isArray data then data else VArr [])])
                200
  else if Str.eqb (method req) (str "POST") && no_id then
    let body := match json_body req with Some v => v | None => VNull end in
    if negb (truthy body)
    then json_call (VObj [field "ok" (VBool false);
                          field "error" (VStr (str "Invalid JSON body"))]) 400
    else
    technicalFit <- js_Number (get body "technicalFit") ;;
    functionalFit <- js_Number (get body "functionalFit") ;;
    if negb (js_ge technicalFit 1 && js_le technicalFit 5)
    then json_call (VObj [field "ok" (VBool false);
                          field "error" (VStr (str "technicalFit must be 1-5"))]) 400
    else if negb (js_ge functionalFit 1 && js_le functionalFit 5)
    then json_call (VObj [field "ok" (VBool false);
                          field "error" (VStr (str "functionalFit must be 1-5"))]) 400
    else
    customerName <- S_call (get body "customerName") ;;
    customerId <- S_call (get body "customerId") ;;
    category <- S_call (get body "category") ;;
    solution <- S_call (get body "solution") ;;
    vendor <- S_call (get body "vendor") ;;
    notes <- S_call (get body "notes") ;;
    dateImplemented <- S_call (get body "dateImplemented") ;;
    contractExpiration <- S_call (get body "contractExpiration") ;;
    if is_empty customerName || is_empty category || is_empty solution
    then json_call (VObj [field "ok" (VBool false);
                          field "error"
                            (VStr (str "customerName, category, and solution are required"))])
                400
    else
    let time := computeTIME (VNum technicalFit) (VNum functionalFit) in
    now <- current_time ;;
    let doc :=
      VObj [field "customerName" (VStr customerName);
            field "customerId" (or_null customerId);
            field "category" (VStr category);
            field "solution" (VStr solution);
            field "vendor" (VStr vendor);
            field "notes" (VStr notes);
            field "technicalFit" (VNum technicalFit);
            field "functionalFit" (VNum functionalFit);
            field "timeCode" (VStr (code time));
            field "timeLabel" (VStr (label time));
            field "dateImplemented" (or_null dateImplemented);
            field "contractExpiration" (or_null contractExpiration);
            field "createdAt" (VStr now);
            field "updatedAt" (VStr now)] in
    '(res, data) <- restdbFetch env (str "/rest/" ++ col)
                      {| init_method := str "POST";
                         init_body := Some (JSON_stringify doc);
                         init_headers := [] |} ;;
    if negb (ok res)
    then json_call (VObj [field "ok" (VBool false); field "error" data])
                (store_status res)
    else json_call (VObj [field "ok" (VBool true); field "item" data]) 200
  else if Str.eqb (method req) (str "DELETE") && negb no_id then
    let id := match id with Some i => i | None => [] end in
    '(res, data) <- restdbFetch env
                      (str "/rest/" ++ col ++ str "/" ++ encodeURIComponent id)
                      {| init_method := str "DELETE"; init_body := None;
                         init_headers := [] |} ;;
    if negb (ok res)
    then json_call (VObj [field "ok" (VBool false); field "error" data])
                (store_status res)
    else json_call (VObj [field "ok" (VBool true)]) 200
  else json_call (VObj [field "ok" (VBool false);
                        field "error" (VStr (str "Method not allowed"))]) 405.

(** One entry of the customer summary. *)
Record Customer : Type := { customerName : jsstring; count : Z }.

Definition customer_value (c : Customer) : value :=
  VObj [field "customerName" (VStr (customerName c));
        field "count" (VNum (number_of_count (count c)))].

(** The name the summary loop reads off one fetched record,
    [it && it.customerName ? String(it.customerName).trim() : ""], for a
    record whose name converts. *)
Definition record_name (it : value) : jsstring :=
  if truthy it && truthy (get it "customerName")
  then trim (ToString (get it "customerName"))
  else [].

(** The same expression as it runs. *)
Definition name_call (it : value) : Eff jsstring :=
  if truthy it && truthy (get it "customerName")
  then s <- js_String (get it "customerName") ;; ret (trim s)
  else ret [].

(** What one turn of the summary loop does to the map, for a record whose
    name converts. *)
Definition count_record (m : CountMap) (it : value) : CountMap :=
  let name := record_name it in
  if is_empty name then m
  else map_set name (match lookup name m with Some c => c | None => 0 end + 1) m.

(** The summary loop as it runs, from the map built so far. *)
Fixpoint count_loop (items : list value) (m : CountMap) : Eff CountMap :=
  match items with
  | [] => ret m
  | it :: rest =>
      name <- name_call it ;;
      count_loop rest
        (if is_empty name then m
         else map_set name (match lookup name m with Some c => c | None => 0 end + 1) m)
  end.

(** The entries of the map turned into summary rows and sorted by name. *)
Definition rows_of (map : CountMap) : list Customer :=
  sort (fun a b => localeCompare (customerName a) (customerName b))
    (List.map (fun e => {| customerName := fst e; count := snd e |}) map).

(** The summary of records whose names all convert: the loop over the
    fetched records, then the entries turned into rows and sorted. *)
Definition summarize (items : list value) : list Customer :=
  let map := fold_left count_record items [] in
  sort (fun a b => localeCompare (customerName a) (customerName b))
    (List.map (fun e => {| customerName := fst e; count := snd e |}) map).

Definition handleCustomers (req : Request) (env : Env) : Eff Response :=
  if negb (Str.eqb (method req) (str "GET"))
  then json_call (VObj [field "ok" (VBool false);
                        field "error" (VStr (str "Method not allowed"))]) 405
  else
  let col :=
    encodeURIComponent (ToString (js_or (env_get env "RESTDB_COLLECTION") (VStr []))) in
  let fields :=
    encodeURIComponent (JSON_stringify (VObj [field "customerName" (VNum 1%float)])) in
  let sort :=
    encodeURIComponent (JSON_stringify (VObj [field "customerName" (VNum 1%float)])) in
  '(res, data) <- restdbFetch env
                    (str "/rest/" ++ col ++ str "?fields=" ++ fields
                     ++ str "&sort=" ++ sort)
                    {| init_method := str "GET"; init_body := None;
                       init_headers := [] |} ;;
  if negb (ok res)
  then json_call (VObj [field "ok" (VBool false); field "error" data])
              (store_status res)
  else
  let items := match data with VArr l => l | _ => [] end in
  map <- count_loop items [] ;;
  let customers := rows_of map in
  json_call (VObj [field "ok" (VBool true);
                   field "customers" (VArr (List.map customer_value customers))])
         200.

Definition handleApi (req : Request) (env : Env) : Eff Response :=
  if startsWith (pathname req) (str "/api/items") then handleItems req env
  else if Str.eqb (pathname req) (str "/api/customers") then handleCustomers req env
  else json_call (VObj [field "ok" (VBool false);
                        field "error" (VStr (str "Not Found"))]) 404.

(** The markup produced by [htmlPage(env)], taken as a given text. *)
Variable htmlPage : Env -> jsstring.

Definition page_headers : list (jsstring * jsstring) :=
  [(str "content-type", str "text/html; charset=utf-8");
   (str "content-security-policy",
    str "frame-ancestors https://packetfusioncrm.crm.dynamics.com;");
   (str "referrer-policy", str "strict-origin-when-cross-origin");
   (str "x-content-type-options", str "nosniff")].

Definition fetch (req : Request) (env : Env) : Eff Response :=
  if Str.eqb (pathname req) (str "/")
  then new_Response (htmlPage env) 200 page_headers
  else if startsWith (pathname req) (str "/api/") then handleApi req env
  else new_Response (str "Not Found") 404 [].

End WithHost.
End Worker.

(** ** The browser script of the generated page *)

Module Page.
Section WithHost.
Context {host : Host}.

Definition computeTIME (tech func : value) : TIME :=
  let techHigh := js_ge (ToNumber tech) 4 in
  let funcHigh := js_ge (ToNumber func) 4 in
  if techHigh && funcHigh then {| code := str "I"; label := str "Invest" |}
  else if negb techHigh && funcHigh then {| code := str "M"; label := str "Migrate" |}
  else if techHigh && negb funcHigh then {| code := str "T"; label := str "Tolerate" |}
  else {| code := str "E"; label := str "Eliminate" |}.


(** What [val(id)] gives for the inputs the save handler reads. *)
Record Form : Type := {
  customerName : jsstring;
  category : jsstring;
  solution : jsstring;
  vendor : jsstring;
  notes : jsstring;
  technicalFit : jsstring;
  functionalFit : jsstring;
  dateImplemented : jsstring;
  contractExpiration : jsstring
}.

(** How the click on Save goes on after reading the form: the message it
    shows through [setError], or the payload it posts to [/api/items]. *)
Inductive SaveStep : Type :=
| ShowError (message : jsstring)
| Post (payload : value).

(** The body of the Save handler up to the call of [api]: the fields are
    read, the three required ones are checked in turn, and the payload is
    built. *)
Definition save (form : Form) : SaveStep :=
  let customerName := trim (customerName form) in
  let category := category form in
  let solution := trim (solution form) in
  let vendor := trim (vendor form) in
  let notes := trim (notes form) in
  let technicalFit := ToNumber (VStr (technicalFit form)) in
  let functionalFit := ToNumber (VStr (functionalFit form)) in
  let dateImplemented := dateImplemented form in
  let contractExpiration := contractExpiration form in
  if is_empty customerName then ShowError (str "Customer Name is required.")
  else if is_empty category then ShowError (str "Category is required.")
  else if is_empty solution then ShowError (str "Current solution is required.")
  else Post (VObj [field "customerName" (VStr customerName);
                   field "category" (VStr category);
                   field "solution" (VStr solution);
                   field "vendor" (VStr vendor);
                   field "notes" (VStr notes);
                   field "technicalFit" (VNum technicalFit);
                   field "functionalFit" (VNum functionalFit);
                   field "dateImplemented" (VStr dateImplemented);
                   field "contractExpiration" (VStr contractExpiration)]).

(** The preview [updateTimePreview] shows for the form. *)
Definition preview (form : Form) : TIME :=
  computeTIME (VStr (technicalFit form)) (VStr (functionalFit form)).

End WithHost.
End Page.

(** ** The entry point of the two earlier revisions *)

Module Gated.
Section WithHost.
Context {host : Host}.

(** The page markup and the items handler of these revisions; the entry
    point only passes the request on to them. *)
Variable htmlPage : Env -> jsstring.
Variable handleItems : Request -> Env -> Eff Response.

(** [req.headers.get(name) || ""] *)
Definition header_or_empty (req : Request) (name : string) : jsstring :=
  match headers_get (headers req) name with
  | Some s => s
  | None => []
  end.

Definition fetch (req : Request) (env : Env) : Eff Response :=
  if Str.eqb (pathname req) (str "/")
  then new_Response (htmlPage env) 200 Worker.page_headers
  else if startsWith (pathname req) (str "/api/items") then
    if truthy (env_get env "APP_SHARED_TOKEN") then
      let token := header_or_empty req "x-app-token" in
      if negb (Str.eqb token (ToString (env_get env "APP_SHARED_TOKEN")))
      then Worker.json_call (VObj [field "ok" (VBool false);
                                   field "error" (VStr (str "Unauthorized"))]) 401
      else handleItems req env
    else handleItems req env
  else new_Response (str "Not Found") 404 [].

End WithHost.
End Gated.

(** ** The items handler of the two earlier revisions

    It reads the same in both.  [json], [requireEnv], [computeTIME] and
    the local [S] are the functions of the latest revision, which kept
    their text. *)

Module Earlier.
Section WithHost.
Context {host : Host}.

(** The messages the runtime gives to the errors it raises itself: a
    rejected [fetch], and a response body read a second time. *)
Variable fetch_failed : jsstring.
Variable body_used : jsstring.

(** [e.message] *)
Definition message (e : Exception) : jsstring :=
  match e with
  | Error m => m
  | FetchRejected => fetch_failed
  end.

(** [try { body } catch (e) { handler(e) }] *)
Definition try_catch {A : Type} (body : Eff A) (handler : Exception -> Eff A)
  : Eff A :=
  fun w =>
    match body w with
    | (Returned a, log) => (Returned a, log)
    | (Threw e, log) => let (r, log') := handler e w in (r, log ++ log')
    end.

(** [await r.json().catch(() => null)]: the parsed body, [null] when it
    cannot be read or is not JSON. *)
Definition json_or_null (r : StoreResponse) : value :=
  match store_text r with
  | Some text => match JSON_parse text with Some v => v | None => VNull end
  | None => VNull
  end.

(** [data || (await r.text())] after [r.json()]: the body is consumed by
    then, so reading it again rejects. *)
Definition data_or_text (data : value) : Eff value :=
  if truthy data then ret data else throw (Error body_used).

(** The filter object [q] of the list branch. *)
Definition list_filter (customerId category : jsstring) : list (jsstring * value) :=
  (if is_empty customerId then [] else [field "customerId" (VStr customerId)])
  ++ (if is_empty category then [] else [field "category" (VStr category)]).

(** The document [doc] that the create branch builds, as a function of
    the request body and the time of the request. *)
Definition create_doc (body : value) (now : jsstring) : value :=
  let technicalFit := ToNumber (get body "technicalFit") in
  let functionalFit := ToNumber (get body "functionalFit") in
  let time := Worker.computeTIME (VNum technicalFit) (VNum functionalFit) in
  VObj [field "customerId" (VStr (Worker.S (get body "customerId")));
        field "category" (VStr (Worker.S (get body "category")));
        field "solution" (VStr (Worker.S (get body "solution")));
        field "vendor" (VStr (Worker.S (get body "vendor")));
        field "notes" (VStr (Worker.S (get body "notes")));
        field "technicalFit" (VNum technicalFit);
        field "functionalFit" (VNum functionalFit);
        field "timeCode" (VStr (code time));
        field "timeLabel" (VStr (label time));
        field "dateImplemented"
          (Worker.or_null (Worker.S (get body "dateImplemented")));
        field "contractExpiration"
          (Worker.or_null (Worker.S (get body "contractExpiration")));
        field "createdAt" (VStr now);
        field "updatedAt" (VStr now)].

Definition handleItems (req : Request) (env : Env) : Eff Response :=
  guarded <-
    try_catch
      (_ <- Worker.requireEnv env
              ["RESTDB_BASE"; "RESTDB_COLLECTION"; "RESTDB_API_KEY"]%string ;;
       ret None)
      (fun e =>
         response <- Worker.json_call (VObj [field "ok" (VBool false);
                                             field "error" (VStr (message e))]) 500 ;;
         ret (Some response)) ;;
  match guarded with
  | Some response => ret response
  | None =>
  let base := strip_trailing_slash (ToString (env_get env "RESTDB_BASE")) in
  let col := ToString (env_get env "RESTDB_COLLECTION") in
  let apiKey := ToString (env_get env "RESTDB_API_KEY") in
  let id := nth_error (path_parts req) 2 in
  let no_id := match id with None => true | Some _ => false end in
  let restUrl :=
    match id with
    | Some i => base ++ str "/rest/" ++ encodeURIComponent col ++ str "/"
                ++ encodeURIComponent i
    | None => base ++ str "/rest/" ++ encodeURIComponent col
    end in
  let headers :=
    [(str "Content-Type", str "application/json"); (str "x-apikey", apiKey)] in
  if Str.eqb (method req) (str "GET") && no_id then
    let customerId := trim (search_param req "customerId") in
    let category := trim (search_param req "category") in
    let q := list_filter customerId category in
    r <- global_fetch {| call_url := restUrl ++ Worker.list_query q;
                         call_method := str "GET";
                         call_headers := headers;
                         call_body := None |} ;;
    let data := json_or_null r in
    if negb (ok r)
    then error <- data_or_text data ;;
         Worker.json_call (VObj [field "ok" (VBool false); field "error" error])
                (store_status r)
    else Worker.json_call (VObj [field "ok" (VBool true);
                                 field "items" (js_or data (VArr []))]) 200
  else if Str.eqb (method req) (str "POST") && no_id then
    let body := match json_body req with Some v => v | None => VNull end in
    if negb (truthy body)
    then Worker.json_call (VObj [field "ok" (VBool false);
                                 field "error" (VStr (str "Invalid JSON body"))]) 400
    else
    technicalFit <- js_Number (get body "technicalFit") ;;
    functionalFit <- js_Number (get body "functionalFit") ;;
    if negb (js_ge technicalFit 1 && js_le technicalFit 5)
    then Worker.json_call (VObj [field "ok" (VBool false);
                                 field "error" (VStr (str "technicalFit must be 1-5"))])
                400
    else if negb (js_ge functionalFit 1 && js_le functionalFit 5)
    then Worker.json_call (VObj [field "ok" (VBool false);
                                 field "error" (VStr (str "functionalFit must be 1-5"))])
                400
    else
    customerId <- Worker.S_call (get body "customerId") ;;
    category <- Worker.S_call (get body "category") ;;
    solution <- Worker.S_call (get body "solution") ;;
    vendor <- Worker.S_call (get body "vendor") ;;
    notes <- Worker.S_call (get body "notes") ;;
    dateImplemented <- Worker.S_call (get body "dateImplemented") ;;
    contractExpiration <- Worker.S_call (get body "contractExpiration") ;;
    if is_empty customerId || is_empty category || is_empty solution
    then Worker.json_call
                (VObj [field "ok" (VBool false);
                       field "error"
                         (VStr (str "customerId, category, and solution are required"))])
                400
    else
    let time := Worker.computeTIME (VNum technicalFit) (VNum functionalFit) in
    now <- current_time ;;
    let doc :=
      VObj [field "customerId" (VStr customerId);
            field "category" (VStr category);
            field "solution" (VStr solution);
            field "vendor" (VStr vendor);
            field "notes" (VStr notes);
            field "technicalFit" (VNum technicalFit);
            field "functionalFit" (VNum functionalFit);
            field "timeCode" (VStr (code time));
            field "timeLabel" (VStr (label time));
            field "dateImplemented" (Worker.or_null dateImplemented);
            field "contractExpiration" (Worker.or_null contractExpiration);
            field "createdAt" (VStr now);
            field "updatedAt" (VStr now)] in
    r <- global_fetch {| call_url := restUrl;
                         call_method := str "POST";
                         call_headers := headers;
                         call_body := Some (JSON_stringify doc) |} ;;
    let data := json_or_null r in
    if negb (ok r)
    then error <- data_or_text data ;;
         Worker.json_call (VObj [field "ok" (VBool false); field "error" error])
                (store_status r)
    else Worker.json_call (VObj [field "ok" (VBool true); field "item" data]) 200
  else if Str.eqb (method req) (str "DELETE") && negb no_id then
    r <- global_fetch {| call_url := restUrl;
                         call_method := str "DELETE";
                         call_headers := headers;
                         call_body := None |} ;;
    if negb (ok r)
    then
      let t := match store_text r with Some t => t | None => [] end in
      Worker.json_call
             (VObj [field "ok" (VBool false);
                    field "error" (VStr (if is_empty t then str "Delete failed" else t))])
             (store_status r)
    else Worker.json_call (VObj [field "ok" (VBool true)]) 200
  else Worker.json_call (VObj [field "ok" (VBool false);
                               field "error" (VStr (str "Method not allowed"))]) 405
  end.

End WithHost.
End Earlier.

(** ** A host for running the handlers on examples

    Small executable stand-ins for the built-ins: decimal whole numbers
    for numeric parsing and formatting, a compact JSON printer, a table of
    known texts for JSON parsing, percent encoding of UTF-8 bytes,
    code-unit order for collation, and fixed error messages. *)

Module Example.

Fixpoint digits_value (s : jsstring) (acc : Z) : option Z :=
  match s with
  | [] => Some acc
  | c :: s' =>
      if ((48 <=? c) && (c <=? 57))%N
      then digits_value s' (10 * acc + (Z.of_N c - 48))
      else None
  end.

Definition parse_number (s : jsstring) : float :=
  match trim s with
  | [] => 0%float
  | t => match digits_value t 0 with
         | Some z => PrimFloat.of_uint63 (Uint63.of_Z z)
         | None => PrimFloat.nan
         end
  end.

Fixpoint digits_of (fuel : nat) (z : Z) (acc : jsstring) : jsstring :=
  match fuel with
  | O => acc
  | Datatypes.S fuel' =>
      let acc' := Z.to_N (48 + z mod 10) :: acc in
      if z <? 10 then acc' else digits_of fuel' (z / 10) acc'
  end.

Definition print_number (x : float) : jsstring :=
  match Prim2SF x with
  | S754_zero _ => str "0"
  | S754_nan => str "NaN"
  | S754_infinity sign => if sign then str "-Infinity" else str "Infinity"
  | S754_finite sign m e =>
      (if sign then str "-" else [])
      ++ digits_of 20 (Z.shiftl (Z.pos m) e) []
  end.

Definition hex_digit (n : N) : N := (if n <? 10 then 48 + n else 55 + n)%N.

Definition percent (b : N) : jsstring :=
  [37%N; hex_digit (b / 16); hex_digit (b mod 16)].

Definition unreserved (c : N) : bool :=
  ((48 <=? c) && (c <=? 57) || (65 <=? c) && (c <=? 90) || (97 <=? c) && (c <=? 122)
   || (c =? 45) || (c =? 95) || (c =? 46) || (c =? 33) || (c =? 126) || (c =? 42)
   || (c =? 39) || (c =? 40) || (c =? 41))%N.

Definition encode_unit (c : N) : jsstring :=
  (if unreserved c then [c]
   else if c <? 128 then percent c
   else if c <? 2048 then percent (192 + c / 64) ++ percent (128 + c mod 64)
   else percent (224 + c / 4096) ++ percent (128 + (c / 64) mod 64)
        ++ percent (128 + c mod 64))%N.

Definition encode (s : jsstring) : jsstring := flat_map encode_unit s.

Definition quote (s : jsstring) : jsstring := 34%N :: s ++ [34%N].

Fixpoint print_json (print_num : float -> jsstring) (v : value) : jsstring :=
  match v with
  | VUndefined | VNull => str "null"
  | VBool true => str "true"
  | VBool false => str "false"
  | VNum x => print_num x
  | VStr s => quote s
  | VArr items => str "[" ++ join (str ",") (map (print_json print_num) items) ++ str "]"
  | VObj fields =>
      str "{"
      ++ join (str ",")
           (map (fun kv => quote (fst kv) ++ str ":" ++ print_json print_num (snd kv))
              fields)
      ++ str "}"
  end.

Fixpoint compare_units (a b : jsstring) : Z :=
  match a, b with
  | [], [] => 0
  | [], _ :: _ => -1
  | _ :: _, [] => 1
  | x :: a', y :: b' =>
      match N.compare x y with
      | Lt => -1
      | Gt => 1
      | Eq => compare_units a' b'
      end
  end.

(** Three fetched records: two of one customer (one with padding around
    the name), one of another. *)
Definition records : list value :=
  [VObj [field "_id" (VStr (str "a1")); field "customerName" (VStr (str "Zenith"))];
   VObj [field "_id" (VStr (str "a2")); field "customerName" (VStr (str "Acme"))];
   VObj [field "_id" (VStr (str "a3")); field "customerName" (VStr (str " Zenith "))]].

(** A value that does not convert to a primitive: an object with a
    member of its own called [toString]. *)
Definition shadowed : value := VObj [field "toString" (VNum 1%float)].

(** Two fetched records, the second with such a value as its name. *)
Definition odd_records : list value :=
  [VObj [field "_id" (VStr (str "b1")); field "customerName" (VStr (str "Acme"))];
   VObj [field "_id" (VStr (str "b2")); field "customerName" shadowed]].

Definition known_texts : list (jsstring * value) :=
  [(str "[]", VArr []);
   (str "null", VNull);
   (str "{}", VObj []);
   (print_json print_number (VArr records), VArr records);
   (print_json print_number (VArr odd_records), VArr odd_records)].

Definition host : Host := {|
  StringToNumber := parse_number;
  NumberToString := print_number;
  JSON_parse := fun text => lookup text known_texts;
  JSON_stringify := print_json print_number;
  JSON_stringify_indented := print_json print_number;
  encodeURIComponent := encode;
  localeCompare := compare_units;
  cannot_convert := str "Cannot convert object to primitive value";
  invalid_status := fun _ => str "Invalid response status code"
|}.

(** A page, a configuration, a store that answers every call with the
    three records, a store that cannot be reached, and a request maker. *)
Definition page : Env -> jsstring := fun _ => str "<!doctype html>".

Definition env : Env :=
  [(str "RESTDB_BASE", str "https://db.example/");
   (str "RESTDB_COLLECTION", str "matrix");
   (str "RESTDB_API_KEY", str "k")].

Definition clock : jsstring := str "2026-01-06T00:00:00.000Z".

Definition world : World :=
  {| upstream := fun _ =>
       Fetched {| store_status := 200;
                  store_text := Some (print_json print_number (VArr records)) |};
     now := clock |}.

Definition offline : World :=
  {| upstream := fun _ => NetworkFailure; now := clock |}.

Definition request (m path : string) (params : list (jsstring * jsstring))
    (b : option value) : Request :=
  {| method := str m;
     pathname := str path;
     searchParams := params;
     headers := [];
     json_body := b |}.

(** A complete record as the page submits it, with a derived member the
    client has no say in. *)
Definition submission (technicalFit functionalFit : value) (name : string) : value :=
  VObj [field "customerName" (VStr (str name));
        field "category" (VStr (str "AI"));
        field "solution" (VStr (str "Assistant"));
        field "technicalFit" technicalFit;
        field "functionalFit" functionalFit;
        field "timeCode" (VStr (str "I"))].

(** A filled form of the page, with padding around two of its texts. *)
Definition form : Page.Form :=
  {| Page.customerName := str " Acme ";
     Page.category := str "AI";
     Page.solution := str "Assistant ";
     Page.vendor := str "";
     Page.notes := str "pilot";
     Page.technicalFit := str "5";
     Page.functionalFit := str "2";
     Page.dateImplemented := str "2026-01-06";
     Page.contractExpiration := str "" |}.

(** A store that answers every call with the two odd records. *)
Definition odd_world : World :=
  {| upstream := fun _ =>
       Fetched {| store_status := 200;
                  store_text := Some (print_json print_number (VArr odd_records)) |};
     now := clock |}.

(** A store that answers every call with status 304 and no text. *)
Definition unchanged : World :=
  {| upstream := fun _ => Fetched {| store_status := 304; store_text := Some [] |};
     now := clock |}.

(** A store that refuses every call with a body that is not JSON. *)
Definition failing : World :=
  {| upstream := fun _ =>
       Fetched {| store_status := 404; store_text := Some (str "Not found") |};
     now := clock |}.

End Example.

(** * Vocabulary of the statements *)

Section Vocabulary.
Context {host : Host}.

(** A binding that is present and not empty. *)
Definition configured (env : Env) (k : string) : Prop :=
  truthy (env_get env k) = true.

(** The count held for [k], zero when [k] is absent. *)
Definition tally (m : CountMap) (k : jsstring) : Z :=
  match lookup k m with Some c => c | None => 0 end.

(** The four outcomes. *)
Definition Invest : TIME := {| code := str "I"; label := str "Invest" |}.

Definition Migrate : TIME := {| code := str "M"; label := str "Migrate" |}.

Definition Tolerate : TIME := {| code := str "T"; label := str "Tolerate" |}.

Definition Eliminate : TIME := {| code := str "E"; label := str "Eliminate" |}.

(** The classification as the specification words it: a rating is high
    when it is at least 4, and the pair of flags picks the quadrant. *)
Definition spec_classification (technical functional : float) : TIME :=
  match PrimFloat.leb 4 technical, PrimFloat.leb 4 functional with
  | true, true => Invest
  | false, true => Migrate
  | true, false => Tolerate
  | false, false => Eliminate
  end.

(** A whole rating as the number the handlers see. *)
Definition rating (n : Z) : value := VNum (PrimFloat.of_uint63 (Uint63.of_Z n)).

(** The quadrant of a pair of whole ratings, by integer comparison. *)
Definition quadrant (t f : Z) : TIME :=
  match 4 <=? t, 4 <=? f with
  | true, true => Invest
  | false, true => Migrate
  | true, false => Tolerate
  | false, false => Eliminate
  end.

(** A create request: [POST /api/items] whose body parsed to [body]. *)
Definition create_request (req : Request) (body : value) : Prop :=
  method req = str "POST"
  /\ pathname req = str "/api/items"
  /\ json_body req = Some body.

(** A number within 1 to 5, both ends included. *)
Definition rating_ok (x : float) : bool :=
  PrimFloat.leb 1 x && PrimFloat.leb x 5.

(** The error envelope [{ok: false, error: msg}] sent with [status]. *)
Definition error_response (msg : string) (status : Z) : Response :=
  Worker.json (VObj [field "ok" (VBool false); field "error" (VStr (str msg))])
    status.

(** The same request with another outcome of [req.json()]. *)
Definition with_body (req : Request) (b : option value) : Request :=
  {| method := method req;
     pathname := pathname req;
     searchParams := searchParams req;
     headers := headers req;
     json_body := b |}.

(** The collection segment of the store's URLs. *)
Definition collection (env : Env) : jsstring :=
  encodeURIComponent
    (ToString (js_or (env_get env "RESTDB_COLLECTION") (VStr []))).

(** The store call that creates [doc]. *)
Definition create_call (env : Env) (doc : value) : FetchCall :=
  Worker.store_call env (str "/rest/" ++ collection env)
    {| Worker.init_method := str "POST";
       Worker.init_body := Some (JSON_stringify doc);
       Worker.init_headers := [] |}.

(** A JSON answer written out: the status, the one header, and the
    indented JSON text of [obj] as the body. *)
Definition reply (obj : value) (status : Z) : Response :=
  {| status := status;
     response_headers :=
       [(str "content-type", str "application/json; charset=utf-8")];
     body := JSON_stringify_indented obj |}.

(** How answering [obj] with [status] ends: with the reply when the status
    is one a response with a body may carry, with the runtime's error
    otherwise. *)
Definition answered (obj : value) (status : Z) : Outcome Response :=
  if status_accepted status then Returned (reply obj status)
  else Threw (Error (invalid_status status)).

(** How a handler ends that passes on what the store said: [{ok: true}]
    with the [success] members and status 200 on a success status, the
    error [error] under the store's own status otherwise. *)
Definition relayed (res : StoreResponse) (success : list (jsstring * value))
    (error : value) : Outcome Response :=
  if ok res
  then Returned (reply (VObj (field "ok" (VBool true) :: success)) 200)
  else answered (VObj [field "ok" (VBool false); field "error" error])
         (store_status res).

(** How a handler ends after its one store call [call]: in the rejection
    of [fetch] when the store cannot be reached, as [after] says of the
    store's answer otherwise. *)
Definition after_call (w : World) (call : FetchCall)
    (after : StoreResponse -> Outcome Response) : Outcome Response :=
  match upstream w call with
  | Fetched res => after res
  | NetworkFailure => Threw FetchRejected
  end.

(** The two ratings of a body. *)
Definition rating_members : list string :=
  ["technicalFit"; "functionalFit"]%string.

(** The members of a body that the create branch converts to text, in
    the order it does so, and the three of them that are required. *)
Definition text_members : list string :=
  ["customerName"; "customerId"; "category"; "solution"; "vendor"; "notes";
   "dateImplemented"; "contractExpiration"]%string.

Definition required_members : list string :=
  ["customerName"; "category"; "solution"]%string.

(** The members [names] of [body] all convert. *)
Definition convert (body : value) (names : list string) : bool :=
  forallb (fun k => coercible (get body k)) names.

(** The three settings of the store are present. *)
Definition store_configured (env : Env) : Prop :=
  configured env "RESTDB_BASE"
  /\ configured env "RESTDB_COLLECTION"
  /\ configured env "RESTDB_API_KEY".

(** A body that passes every check of the create branch: it is truthy,
    its ratings convert to numbers within 1 to 5, its texts convert, and
    the three required ones are not empty. *)
Definition accepted (body : value) : Prop :=
  truthy body = true
  /\ convert body rating_members = true
  /\ rating_ok (ToNumber (get body "technicalFit")) = true
  /\ rating_ok (ToNumber (get body "functionalFit")) = true
  /\ convert body text_members = true
  /\ Worker.S (get body "customerName") <> []
  /\ Worker.S (get body "category") <> []
  /\ Worker.S (get body "solution") <> [].

(** The name of a fetched record converts, when the loop reads it. *)
Definition name_converts (it : value) : bool :=
  negb (truthy it && truthy (get it "customerName"))
  || coercible (get it "customerName").

(** A row of the summary written out. *)
Definition customer_row (name : jsstring) (count : Z) : value :=
  VObj [field "customerName" (VStr name);
        field "count" (VNum (number_of_count count))].

(** The two derived members a client may have added to a body. *)
Definition is_client_time (k : jsstring) : bool :=
  Str.eqb k (str "timeCode") || Str.eqb k (str "timeLabel").

(** The body with those members removed. *)
Definition without_client_time (body : value) : value :=
  match body with
  | VObj fields => VObj (filter (fun kv => negb (is_client_time (fst kv))) fields)
  | _ => body
  end.

(** The fetched records that bear the name [n]. *)
Definition bearing (n : jsstring) (items : list value) : list value :=
  filter (fun it => Str.eqb (Worker.record_name it) n) items.

(** The store call of the summary: all records, projected on
    [customerName]. *)
Definition customers_call (env : Env) : FetchCall :=
  let projection :=
    encodeURIComponent (JSON_stringify (VObj [field "customerName" (VNum 1%float)])) in
  Worker.store_call env
    (str "/rest/" ++ collection env ++ str "?fields=" ++ projection
     ++ str "&sort=" ++ projection)
    {| Worker.init_method := str "GET";
       Worker.init_body := None;
       Worker.init_headers := [] |}.

(** What the loop keeps true of its map: keys are distinct and not empty,
    counts are positive. *)
Definition well_counted (m : CountMap) : Prop :=
  NoDup (map fst m)
  /\ forall k c, lookup k m = Some c -> k <> [] /\ 0 < c.

(** The order the summary is sorted by. *)
Definition by_name (a b : Worker.Customer) : Prop :=
  localeCompare (Worker.customerName a) (Worker.customerName b) <= 0.

(** The sort descriptor [{createdAt: -1}] as it appears in the query. *)
Definition newest_first : jsstring :=
  encodeURIComponent (JSON_stringify (VObj [field "createdAt" (VNum (-1)%float)])).

(** The filter object the list branch builds for a request. *)
Definition request_filter (req : Request) : list (jsstring * value) :=
  Worker.list_filter (trim (search_param req "customerName"))
    (trim (search_param req "customerId"))
    (trim (search_param req "category")).

(** The store call of the list branch. *)
Definition list_call (env : Env) (req : Request) : FetchCall :=
  Worker.store_call env
    (str "/rest/" ++ collection env ++ Worker.list_query (request_filter req))
    {| Worker.init_method := str "GET";
       Worker.init_body := None;
       Worker.init_headers := [] |}.

(** The plain answer to a path the entry point does not route. *)
Definition plain_not_found : Response :=
  {| status := 404; response_headers := []; body := str "Not Found" |}.

(** [a] may stand before [b] under the comparator [cmp]. *)
Definition before {A : Type} (cmp : A -> A -> Z) (a b : A) : Prop :=
  cmp a b <= 0.

End Vocabulary.

(** * Vocabulary of the further statements *)

Section FurtherVocabulary.
Context {host : Host}.

(** What [escapeHtml] makes of one code unit. *)
Definition escape_unit (c : N) : jsstring :=
  if N.eqb c 38 then str "&amp;"
  else if N.eqb c 60 then str "&lt;"
  else if N.eqb c 62 then str "&gt;"
  else if N.eqb c 34 then str "&quot;"
  else [c].


(** The units that open or close a tag or an attribute value. *)
Definition markup (c : N) : bool :=
  N.eqb c 60 || N.eqb c 62 || N.eqb c 34.

(** The settings [restdbFetch] requires. *)
Definition store_settings : list string :=
  ["RESTDB_BASE"; "RESTDB_COLLECTION"; "RESTDB_API_KEY"]%string.

(** The required settings that are absent or empty. *)
Definition missing_settings (env : Env) : list string :=
  filter (fun k => negb (truthy (env_get env k))) store_settings.

(** The error [requireEnv] throws for the missing settings. *)
Definition missing_error (env : Env) : Exception :=
  Error (str "Missing env vars: " ++ join (str ", ") (map str (missing_settings env))).

(** The same request under another path. *)
Definition with_pathname (req : Request) (p : jsstring) : Request :=
  {| method := method req;
     pathname := p;
     searchParams := searchParams req;
     headers := headers req;
     json_body := json_body req |}.

(** A path segment: not empty and without a slash. *)
Definition segment (id : jsstring) : Prop :=
  id <> [] /\ Forall (fun c => c <> 47%N) id.

(** The store call that deletes the record [id]. *)
Definition delete_call (env : Env) (id : jsstring) : FetchCall :=
  Worker.store_call env
    (str "/rest/" ++ collection env ++ str "/" ++ encodeURIComponent id)
    {| Worker.init_method := str "DELETE";
       Worker.init_body := None;
       Worker.init_headers := [] |}.

(** The JSON answer [{ok: false, error: "Method not allowed"}], 405. *)
Definition method_not_allowed : Response :=
  error_response "Method not allowed" 405.

(** The sum of the counts of a summary. *)
Definition total (customers : list Worker.Customer) : Z :=
  fold_right (fun c acc => Worker.count c + acc) 0 customers.

(** The fetched records that bear a name. *)
Definition named (items : list value) : list value :=
  filter (fun it => negb (is_empty (Worker.record_name it))) items.

(** A string with no white space at either end. *)
Definition tidy (s : jsstring) : Prop :=
  (forall c r, s = c :: r -> is_ws c = false)
  /\ (forall c r, s = r ++ [c] -> is_ws c = false).

(** A member that is [null] or a string that is not empty and is tidy. *)
Definition null_or_text (v : value) : Prop :=
  v = VNull \/ exists s, v = VStr s /\ s <> [] /\ tidy s.

(** A member that is a tidy string. *)
Definition tidy_text (v : value) : Prop :=
  exists s, v = VStr s /\ tidy s.

(** The names of the members of an object, in order. *)
Definition keys (v : value) : list jsstring :=
  match v with
  | VObj fields => map fst fields
  | _ => []
  end.

(** The headers the earlier revisions send to the store. *)
Definition earlier_headers (env : Env) : list (jsstring * jsstring) :=
  [(str "Content-Type", str "application/json");
   (str "x-apikey", ToString (env_get env "RESTDB_API_KEY"))].

(** The address of the collection in the earlier revisions. *)
Definition earlier_collection_url (env : Env) : jsstring :=
  strip_trailing_slash (ToString (env_get env "RESTDB_BASE"))
  ++ str "/rest/"
  ++ encodeURIComponent (ToString (env_get env "RESTDB_COLLECTION")).


(** The store call of the delete branch of the earlier revisions. *)
Definition earlier_delete_call (env : Env) (id : jsstring) : FetchCall :=
  {| call_url :=
       strip_trailing_slash (ToString (env_get env "RESTDB_BASE"))
       ++ str "/rest/"
       ++ encodeURIComponent (ToString (env_get env "RESTDB_COLLECTION"))
       ++ str "/" ++ encodeURIComponent id;
     call_method := str "DELETE";
     call_headers := earlier_headers env;
     call_body := None |}.

End FurtherVocabulary.

(** * Properties *)

(** ** Strings and lookups *)

Lemma eqb_eq (a b : jsstring) : Str.eqb a b = true <-> a = b.
Proof.
  revert b; induction a as [|x a IH]; intros [|y b]; simpl; split;
    try reflexivity; try discriminate.
  - intros H. apply andb_true_iff in H as [Hx Hab].
    apply N.eqb_eq in Hx. apply IH in Hab. congruence.
  - intros H. injection H as -> ->.
    rewrite N.eqb_refl. simpl. apply IH. reflexivity.
Qed.

Lemma eqb_refl (a : jsstring) : Str.eqb a a = true.
Proof. apply eqb_eq. reflexivity. Qed.

Lemma eqb_neq (a b : jsstring) : Str.eqb a b = false <-> a <> b.
Proof.
  split.
  - intros H E. apply eqb_eq in E. congruence.
  - intros H. destruct (Str.eqb a b) eqn:E; [|reflexivity].
    apply eqb_eq in E. contradiction.
Qed.

Lemma is_empty_true (s : jsstring) : is_empty s = true <-> s = [].
Proof. destruct s; simpl; split; congruence. Qed.

Lemma is_empty_false (s : jsstring) : is_empty s = false <-> s <> [].
Proof. destruct s; simpl; split; congruence. Qed.

Lemma drop_ws_blank (s : jsstring) : forallb is_ws s = true -> drop_ws s = [].
Proof.
  induction s as [|c s IH]; simpl; [reflexivity|].
  intros H. apply andb_true_iff in H as [Hc Hs].
  rewrite Hc. auto.
Qed.

Lemma trim_blank (s : jsstring) : forallb is_ws s = true -> trim s = [].
Proof. intros H. unfold trim. rewrite (drop_ws_blank s H). reflexivity. Qed.

(** ** Effects *)

Lemma bind_returned {A B : Type} (m : Eff A) (k : A -> Eff B) (w : World) a log :
  m w = (Returned a, log) ->
  bind m k w = (fst (k a w), log ++ snd (k a w)).
Proof. intros H. unfold bind. rewrite H. destruct (k a w). reflexivity. Qed.

Lemma bind_pure {A B : Type} (m : Eff A) (k : A -> Eff B) (w : World) (a : A) :
  m w = (Returned a, []) -> bind m k w = k a w.
Proof. intros H. unfold bind. rewrite H. destruct (k a w). reflexivity. Qed.

Lemma bind_threw {A B : Type} (m : Eff A) (k : A -> Eff B) (w : World)
    (e : Exception) (log : list FetchCall) :
  m w = (Threw e, log) -> bind m k w = (Threw e, log).
Proof. intros H. unfold bind. rewrite H. reflexivity. Qed.

(** ** Configuration *)

Lemma configured_value (env : Env) (k : string) :
  configured env k ->
  exists s, env_get env k = VStr s /\ is_empty s = false.
Proof.
  unfold configured, env_get.
  destruct (lookup (str k) env) as [s|]; simpl; [|discriminate].
  intros H. exists s. split; [reflexivity|].
  destruct s; [discriminate|reflexivity].
Qed.

(** ** Sorting *)

Section Sorting.
Variable A : Type.
Variable cmp : A -> A -> Z.

Hypothesis cmp_consistent : forall a b, 0 < cmp a b -> cmp b a <= 0.
Hypothesis cmp_transitive :
  forall a b c, cmp a b <= 0 -> cmp b c <= 0 -> cmp a c <= 0.

Lemma sort_insert_perm (x : A) (l : list A) :
  Permutation (sort_insert cmp x l) (x :: l).
Proof.
  induction l as [|y l IH]; simpl; [apply Permutation_refl|].
  destruct (cmp x y <=? 0); [apply Permutation_refl|].
  apply perm_trans with (y :: x :: l); [|apply perm_swap].
  apply perm_skip, IH.
Qed.

Lemma sort_perm (l : list A) : Permutation (sort cmp l) l.
Proof.
  induction l as [|x l IH]; simpl; [apply perm_nil|].
  apply perm_trans with (x :: sort cmp l); [apply sort_insert_perm|].
  apply perm_skip, IH.
Qed.

Lemma sort_insert_sorted (x : A) (l : list A) :
  StronglySorted (before cmp) l -> StronglySorted (before cmp) (sort_insert cmp x l).
Proof.
  induction 1 as [|y l Hl IH Hy]; simpl.
  - constructor; constructor.
  - destruct (cmp x y <=? 0) eqn:E.
    + apply Z.leb_le in E. constructor.
      * constructor; assumption.
      * constructor; [exact E|].
        rewrite Forall_forall in Hy. apply Forall_forall. intros z Hz.
        apply cmp_transitive with (b := y); [exact E|].
        apply Hy, Hz.
    + apply Z.leb_gt in E. constructor; [exact IH|].
      rewrite Forall_forall in Hy. apply Forall_forall. intros z Hz.
      apply (Permutation_in _ (sort_insert_perm x l)) in Hz.
      destruct Hz as [<-|Hz].
      * apply cmp_consistent. lia.
      * apply Hy, Hz.
Qed.

Lemma sort_sorted (l : list A) : StronglySorted (before cmp) (sort cmp l).
Proof.
  induction l as [|x l IH]; simpl; [constructor|].
  apply sort_insert_sorted, IH.
Qed.

End Sorting.

(** ** Counting maps *)

Lemma lookup_map_set_same (k : jsstring) (v : Z) (m : CountMap) :
  lookup k (map_set k v m) = Some v.
Proof.
  induction m as [|[k' v'] m IH]; simpl.
  - rewrite eqb_refl. reflexivity.
  - destruct (Str.eqb k' k) eqn:E; simpl; rewrite E; [reflexivity|exact IH].
Qed.

Lemma lookup_map_set_other (k k0 : jsstring) (v : Z) (m : CountMap) :
  k0 <> k -> lookup k0 (map_set k v m) = lookup k0 m.
Proof.
  intros Hne. induction m as [|[k' v'] m IH]; simpl.
  - destruct (Str.eqb k k0) eqn:E; [|reflexivity].
    apply eqb_eq in E. congruence.
  - destruct (Str.eqb k' k) eqn:E; simpl.
    + destruct (Str.eqb k' k0) eqn:E0; [|reflexivity].
      apply eqb_eq in E, E0. congruence.
    + rewrite IH. reflexivity.
Qed.

Lemma lookup_none_keys {A : Type} (k : jsstring) (m : list (jsstring * A)) :
  lookup k m = None <-> ~ In k (map fst m).
Proof.
  induction m as [|[k' v] m IH]; simpl.
  - split; [intros _ []|reflexivity].
  - destruct (Str.eqb k' k) eqn:E.
    + apply eqb_eq in E. split; [discriminate|]. intros H. exfalso. auto.
    + apply eqb_neq in E. rewrite IH. split.
      * intros H [H'|H']; auto.
      * intros H H'. auto.
Qed.

Lemma map_set_keys (k : jsstring) (v : Z) (m : CountMap) :
  map fst (map_set k v m)
  = match lookup k m with
    | Some _ => map fst m
    | None => map fst m ++ [k]
    end.
Proof.
  induction m as [|[k' v'] m IH]; simpl; [reflexivity|].
  destruct (Str.eqb k' k) eqn:E; simpl; [reflexivity|].
  rewrite IH. destruct (lookup k m); reflexivity.
Qed.

Lemma map_set_nodup (k : jsstring) (v : Z) (m : CountMap) :
  NoDup (map fst m) -> NoDup (map fst (map_set k v m)).
Proof.
  intros Hm. rewrite map_set_keys.
  destruct (lookup k m) eqn:E; [exact Hm|].
  apply lookup_none_keys in E.
  apply (Permutation_NoDup (l := k :: map fst m)).
  - apply Permutation_cons_append.
  - constructor; assumption.
Qed.

Lemma lookup_in (k : jsstring) (v : Z) (m : CountMap) :
  NoDup (map fst m) -> (In (k, v) m <-> lookup k m = Some v).
Proof.
  induction m as [|[k' v'] m IH]; simpl; intros Hm.
  - split; [intros []|discriminate].
  - inversion Hm as [|? ? Hk' Hm']; subst.
    destruct (Str.eqb k' k) eqn:E.
    + apply eqb_eq in E. subst k'. split.
      * intros [H|H]; [congruence|].
        exfalso. apply Hk'. apply (in_map fst) in H. exact H.
      * intros H. left. congruence.
    + apply eqb_neq in E. rewrite <- (IH Hm'). split.
      * intros [H|H]; [congruence|exact H].
      * intros H. right. exact H.
Qed.

Section Claims.
Context {host : Host}.

Lemma requireEnv_complete (env : Env) (w : World) :
  configured env "RESTDB_BASE" ->
  configured env "RESTDB_COLLECTION" ->
  configured env "RESTDB_API_KEY" ->
  Worker.requireEnv env ["RESTDB_BASE"; "RESTDB_COLLECTION"; "RESTDB_API_KEY"]%string w
  = (Returned tt, []).
Proof.
  unfold configured, Worker.requireEnv. intros H1 H2 H3.
  cbn [filter]. rewrite H1, H2, H3. reflexivity.
Qed.

(** With the three settings present, [restdbFetch] makes exactly one call
    and returns the store's answer with its data. *)
Lemma restdbFetch_answer (env : Env) (path : jsstring) (init : Worker.FetchInit)
    (w : World) (res : StoreResponse) :
  configured env "RESTDB_BASE" ->
  configured env "RESTDB_COLLECTION" ->
  configured env "RESTDB_API_KEY" ->
  upstream w (Worker.store_call env path init) = Fetched res ->
  Worker.restdbFetch env path init w
  = (Returned (res, Worker.store_data res), [Worker.store_call env path init]).
Proof.
  intros H1 H2 H3 Hup. unfold Worker.restdbFetch.
  rewrite (bind_returned _ _ w (requireEnv_complete w H1 H2 H3)).
  assert (Hf : global_fetch (Worker.store_call env path init) w
               = (Returned res, [Worker.store_call env path init]))
    by (unfold global_fetch; rewrite Hup; reflexivity).
  rewrite (bind_returned _ _ w Hf). reflexivity.
Qed.

Lemma restdbFetch_unreachable (env : Env) (path : jsstring) (init : Worker.FetchInit)
    (w : World) :
  configured env "RESTDB_BASE" ->
  configured env "RESTDB_COLLECTION" ->
  configured env "RESTDB_API_KEY" ->
  upstream w (Worker.store_call env path init) = NetworkFailure ->
  Worker.restdbFetch env path init w
  = (Threw FetchRejected, [Worker.store_call env path init]).
Proof.
  intros H1 H2 H3 Hup. unfold Worker.restdbFetch.
  rewrite (bind_returned _ _ w (requireEnv_complete w H1 H2 H3)).
  assert (Hf : global_fetch (Worker.store_call env path init) w
               = (Threw FetchRejected, [Worker.store_call env path init]))
    by (unfold global_fetch; rewrite Hup; reflexivity).
  rewrite (bind_threw _ _ w Hf). reflexivity.
Qed.

(** A handler that ends by answering from the store's reply makes the one
    call and ends as that answer does. *)
Lemma store_then (env : Env) (path : jsstring) (init : Worker.FetchInit) (w : World)
    (k : StoreResponse * value -> Eff Response)
    (after : StoreResponse -> Outcome Response) :
  configured env "RESTDB_BASE" ->
  configured env "RESTDB_COLLECTION" ->
  configured env "RESTDB_API_KEY" ->
  (forall res, k (res, Worker.store_data res) w = (after res, [])) ->
  bind (Worker.restdbFetch env path init) k w
  = (after_call w (Worker.store_call env path init) after,
     [Worker.store_call env path init]).
Proof.
  intros H1 H2 H3 Hk. unfold after_call.
  destruct (upstream w (Worker.store_call env path init)) as [|res] eqn:Hup.
  - apply bind_threw, restdbFetch_unreachable; assumption.
  - rewrite (bind_returned _ _ w (restdbFetch_answer _ _ w H1 H2 H3 Hup)).
    rewrite Hk. reflexivity.
Qed.

Lemma json_call_answers (obj : value) (status : Z) (w : World) :
  Worker.json_call obj status w = (answered obj status, []).
Proof.
  unfold Worker.json_call, new_Response, answered.
  destruct (status_accepted status); reflexivity.
Qed.

Lemma js_Number_returns (v : value) (w : World) :
  coercible v = true -> js_Number v w = (Returned (ToNumber v), []).
Proof. intros H. unfold js_Number. rewrite H. reflexivity. Qed.

Lemma js_Number_raises (v : value) (w : World) :
  coercible v = false -> js_Number v w = (Threw (Error cannot_convert), []).
Proof. intros H. unfold js_Number. rewrite H. reflexivity. Qed.

Lemma nullish_coercible (v : value) : is_nullish v = true -> coercible v = true.
Proof. destruct v; try discriminate; reflexivity. Qed.

Lemma S_call_returns (v : value) (w : World) :
  coercible v = true -> Worker.S_call v w = (Returned (Worker.S v), []).
Proof.
  intros H. unfold Worker.S_call, Worker.S, js_String.
  destruct (is_nullish v); [reflexivity|]. rewrite H. reflexivity.
Qed.

Lemma S_call_raises (v : value) (w : World) :
  coercible v = false -> Worker.S_call v w = (Threw (Error cannot_convert), []).
Proof.
  intros H. unfold Worker.S_call, js_String.
  destruct (is_nullish v) eqn:E.
  - rewrite (nullish_coercible _ E) in H. discriminate H.
  - rewrite H. reflexivity.
Qed.

Lemma collection_name (env : Env) :
  configured env "RESTDB_COLLECTION" ->
  exists s,
    ToString (js_or (env_get env "RESTDB_COLLECTION") (VStr [])) = s
    /\ is_empty s = false.
Proof.
  intros H. destruct (configured_value H) as [s [E Hs]].
  exists s. unfold js_or. rewrite H, E. simpl. auto.
Qed.

Lemma route_items (page : Env -> jsstring) (req : Request) (env : Env) :
  pathname req = str "/api/items" ->
  Worker.fetch page req env = Worker.handleItems req env.
Proof. intros H. unfold Worker.fetch, Worker.handleApi. rewrite H. reflexivity. Qed.

Lemma route_customers (page : Env -> jsstring) (req : Request) (env : Env) :
  pathname req = str "/api/customers" ->
  Worker.fetch page req env = Worker.handleCustomers req env.
Proof. intros H. unfold Worker.fetch, Worker.handleApi. rewrite H. reflexivity. Qed.

Lemma no_id (req : Request) :
  pathname req = str "/api/items" -> nth_error (path_parts req) 2 = None.
Proof. intros H. unfold path_parts. rewrite H. reflexivity. Qed.

(** ** Classification *)

Lemma computeTIME_spec (t f : value) :
  Worker.computeTIME t f = spec_classification (ToNumber t) (ToNumber f).
Proof.
  unfold Worker.computeTIME, spec_classification, js_ge.
  destruct (PrimFloat.leb 4 (ToNumber t)), (PrimFloat.leb 4 (ToNumber f));
    reflexivity.
Qed.

Lemma outcomes_distinct : NoDup [Invest; Migrate; Tolerate; Eliminate].
Proof.
  repeat constructor; simpl; intros H;
    repeat (destruct H as [H|H]; [discriminate H|]); exact H.
Qed.

(** C1. For every pair of inputs, [computeTIME] returns the outcome the
    specification's table gives for the two coerced numbers, with 4 as the
    inclusive threshold; the four outcomes are pairwise different; NaN is
    never high, so an input that coerces to NaN is classified as low; on
    the whole ratings 1 to 5 the result is the quadrant by integer
    comparison, and the documented examples hold. *)
Theorem C1_computeTIME_quadrants :
  (forall t f : value,
      Worker.computeTIME t f = spec_classification (ToNumber t) (ToNumber f))
  /\ NoDup [Invest; Migrate; Tolerate; Eliminate]
  /\ (forall x : float, spec_classification PrimFloat.nan x
                        = if PrimFloat.leb 4 x then Migrate else Eliminate)
  /\ (forall x : float, spec_classification x PrimFloat.nan
                        = if PrimFloat.leb 4 x then Tolerate else Eliminate)
  /\ ToNumber VUndefined = PrimFloat.nan
  /\ Forall (fun t =>
        Forall (fun f => Worker.computeTIME (rating t) (rating f) = quadrant t f)
          [1; 2; 3; 4; 5])
      [1; 2; 3; 4; 5]
  /\ Worker.computeTIME (rating 5) (rating 5) = Invest
  /\ Worker.computeTIME (rating 2) (rating 5) = Migrate
  /\ Worker.computeTIME (rating 5) (rating 2) = Tolerate
  /\ Worker.computeTIME (rating 1) (rating 1) = Eliminate
  /\ Worker.computeTIME (rating 4) (rating 4) = Invest
  /\ Worker.computeTIME (rating 3) (rating 4) = Migrate.
Proof.
  split; [exact computeTIME_spec|].
  split; [exact outcomes_distinct|].
  split; [intros x; unfold spec_classification; simpl;
          destruct (PrimFloat.leb 4 x); reflexivity|].
  split; [intros x; unfold spec_classification;
          destruct (PrimFloat.leb 4 x); reflexivity|].
  split; [reflexivity|].
  split; [repeat constructor|].
  repeat split.
Qed.

(** C2. The worker's [computeTIME] and the page script's [computeTIME]
    agree on every pair of inputs.  In particular the preview the page
    shows for the two hidden rating fields is the classification the
    worker stores for the numbers the page submits for them. *)
Theorem C2_preview_matches_backend :
  (forall t f : value, Worker.computeTIME t f = Page.computeTIME t f)
  /\ (forall tech func : jsstring,
        Page.computeTIME (VStr tech) (VStr func)
        = Worker.computeTIME (VNum (ToNumber (VStr tech)))
                             (VNum (ToNumber (VStr func)))).
Proof.
  split.
  - intros t f. unfold Worker.computeTIME, Page.computeTIME. reflexivity.
  - intros tech func. unfold Page.computeTIME, Worker.computeTIME.
    simpl ToNumber. reflexivity.
Qed.

(** ** Creating a record *)

Ltac enter_create Hcfg Hreq :=
  let s := fresh "col" in
  let Es := fresh "Ecol" in
  let Hs := fresh "Hcol" in
  let Hm := fresh "Hmethod" in
  let Hp := fresh "Hpath" in
  let Hb := fresh "Hbody" in
  destruct Hreq as [Hm [Hp Hb]];
  destruct (collection_name Hcfg) as [s [Es Hs]];
  rewrite (route_items _ _ _ Hp);
  unfold Worker.handleItems;
  rewrite Es, Hs, (no_id _ Hp), Hm, Hb;
  change (Str.eqb (str "POST") (str "GET")) with false;
  change (Str.eqb (str "POST") (str "POST")) with true;
  cbn [andb negb].

Lemma create_request_with_body (req : Request) (body b : value) :
  create_request req body -> create_request (with_body req (Some b)) b.
Proof. intros [Hm [Hp _]]. repeat split; assumption. Qed.

(** A body that did not parse is answered with [Invalid JSON body]. *)
Lemma malformed_body_rejected (page : Env -> jsstring) (req : Request) (env : Env)
    (w : World) :
  configured env "RESTDB_COLLECTION" ->
  method req = str "POST" ->
  pathname req = str "/api/items" ->
  json_body req = None ->
  Worker.fetch page req env w
  = (Returned (error_response "Invalid JSON body" 400), []).
Proof.
  intros Hcfg Hm Hp Hb.
  destruct (collection_name Hcfg) as [s [Es Hs]].
  rewrite (route_items _ _ _ Hp). unfold Worker.handleItems.
  rewrite Es, Hs, (no_id _ Hp), Hm, Hb. reflexivity.
Qed.

(** C10. A create request whose body parsed to a falsy value -- the JSON
    literals [null], [false], [0] and the empty string are such values --
    is answered with status 400 and [Invalid JSON body] without any call
    to the store, which is exactly the answer to a body that did not parse;
    so field validation is only reached by a truthy body. *)
Theorem C10_falsy_body_rejected (page : Env -> jsstring) (req : Request)
    (env : Env) (w : World) (body : value) :
  configured env "RESTDB_COLLECTION" ->
  create_request req body ->
  truthy body = false ->
  Worker.fetch page req env w
  = (Returned (error_response "Invalid JSON body" 400), [])
  /\ Worker.fetch page req env w = Worker.fetch page (with_body req None) env w
  /\ truthy VNull = false
  /\ truthy (VBool false) = false
  /\ truthy (VNum 0%float) = false
  /\ truthy (VStr []) = false.
Proof.
  intros Hcfg Hreq Hfalsy.
  assert (E : Worker.fetch page req env w
              = (Returned (error_response "Invalid JSON body" 400), [])).
  { enter_create Hcfg Hreq. rewrite Hfalsy. reflexivity. }
  split; [exact E|].
  split; [|repeat split].
  rewrite E. symmetry.
  destruct Hreq as [Hm [Hp _]].
  apply malformed_body_rejected; auto.
Qed.

Lemma convert_in (body : value) (names : list string) (k : string) :
  convert body names = true -> In k names -> coercible (get body k) = true.
Proof.
  unfold convert. intros H Hk.
  exact (proj1 (forallb_forall _ _) H k Hk).
Qed.

Ltac pass_number Hr :=
  match goal with
  | |- bind (js_Number (get ?b ?k)) _ ?w = _ =>
      rewrite (bind_pure _ _ w
                 (@js_Number_returns (get b k) w
                    (@convert_in b _ k Hr ltac:(simpl; tauto))));
      cbv beta
  end.

Ltac pass_text Hx :=
  match goal with
  | |- bind (Worker.S_call (get ?b ?k)) _ ?w = _ =>
      rewrite (bind_pure _ _ w
                 (@S_call_returns (get b k) w
                    (@convert_in b _ k Hx ltac:(simpl; tauto))));
      cbv beta
  end.

Ltac try_text :=
  match goal with
  | |- bind (Worker.S_call ?v) _ ?w = _ =>
      let C := fresh "C" in
      destruct (coercible v) eqn:C;
      [rewrite (bind_pure _ _ w (@S_call_returns v w C)); cbv beta
      |apply bind_threw, (@S_call_raises v w C)]
  end.

(** A create request that passes every check posts its document, and ends
    as the store's answer has it. *)
Lemma create_accepted (page : Env -> jsstring) (req : Request) (env : Env)
    (w : World) (body : value) :
  configured env "RESTDB_BASE" ->
  configured env "RESTDB_COLLECTION" ->
  configured env "RESTDB_API_KEY" ->
  create_request req body ->
  truthy body = true ->
  convert body rating_members = true ->
  rating_ok (ToNumber (get body "technicalFit")) = true ->
  rating_ok (ToNumber (get body "functionalFit")) = true ->
  convert body text_members = true ->
  Worker.S (get body "customerName") <> [] ->
  Worker.S (get body "category") <> [] ->
  Worker.S (get body "solution") <> [] ->
  Worker.fetch page req env w
  = (after_call w (create_call env (Worker.create_doc body (now w)))
       (fun res => relayed res [field "item" (Worker.store_data res)]
                     (Worker.store_data res)),
     [create_call env (Worker.create_doc body (now w))]).
Proof.
  intros Hbase Hcfg Hkey Hreq Htruthy Hr Ht Hf Hx Hn Hc Hs.
  enter_create Hcfg Hreq. rewrite Htruthy. cbn [negb].
  pass_number Hr. pass_number Hr.
  unfold rating_ok in Ht, Hf. unfold js_ge, js_le. rewrite Ht, Hf. cbn [negb].
  do 8 pass_text Hx.
  apply is_empty_false in Hn, Hc, Hs. rewrite Hn, Hc, Hs. cbn [orb].
  rewrite (bind_pure _ _ w (eq_refl : current_time w = (Returned (now w), []))).
  cbv beta.
  unfold create_call, collection. rewrite Ecol.
  apply store_then; try assumption.
  intros res. cbv beta iota. unfold relayed.
  destruct (ok res); cbn [negb]; rewrite json_call_answers; reflexivity.
Qed.

(** C3 (amended). On a create request with a truthy body whose two
    ratings convert to numbers: a [technicalFit] outside 1 to 5 (NaN
    included) is answered with status 400 and [technicalFit must be 1-5];
    when [technicalFit] is in range, a [functionalFit] outside 1 to 5 is
    answered with status 400 and [functionalFit must be 1-5]; neither
    answer is preceded by a call to the store.  When both are in range the
    request passes the two checks: with texts that convert, the required
    ones not empty and the store configured, the handler posts the
    document.  The numbers 1 and 5 are in range, 0 and 6 are not.  A
    rating that does not convert ends the handler in the uncaught
    conversion error: no answer, and no call to the store. *)
Theorem C3_rating_range_validated (page : Env -> jsstring) (req : Request)
    (env : Env) (w : World) (body : value) :
  configured env "RESTDB_COLLECTION" ->
  create_request req body ->
  truthy body = true ->
  let technicalFit := ToNumber (get body "technicalFit") in
  let functionalFit := ToNumber (get body "functionalFit") in
  (convert body rating_members = true ->
   (rating_ok technicalFit = false ->
    Worker.fetch page req env w
    = (Returned (error_response "technicalFit must be 1-5" 400), []))
   /\ (rating_ok technicalFit = true ->
       rating_ok functionalFit = false ->
       Worker.fetch page req env w
       = (Returned (error_response "functionalFit must be 1-5" 400), []))
   /\ (rating_ok technicalFit = true ->
       rating_ok functionalFit = true ->
       convert body text_members = true ->
       Worker.S (get body "customerName") <> [] ->
       Worker.S (get body "category") <> [] ->
       Worker.S (get body "solution") <> [] ->
       configured env "RESTDB_BASE" ->
       configured env "RESTDB_API_KEY" ->
       snd (Worker.fetch page req env w)
       = [create_call env (Worker.create_doc body (now w))]))
  /\ (convert body rating_members = false ->
      Worker.fetch page req env w = (Threw (Error cannot_convert), []))
  /\ rating_ok (ToNumber (rating 1)) = true
  /\ rating_ok (ToNumber (rating 5)) = true
  /\ rating_ok (ToNumber (rating 0)) = false
  /\ rating_ok (ToNumber (rating 6)) = false.
Proof.
  intros Hcfg Hreq Htruthy technicalFit functionalFit.
  subst technicalFit functionalFit.
  split; [intros Hr; split; [|split]|split; [|repeat split]].
  - intros Ht. enter_create Hcfg Hreq. rewrite Htruthy. cbn [negb].
    pass_number Hr. pass_number Hr.
    unfold rating_ok in Ht. unfold js_ge, js_le. rewrite Ht. reflexivity.
  - intros Ht Hf. enter_create Hcfg Hreq. rewrite Htruthy. cbn [negb].
    pass_number Hr. pass_number Hr.
    unfold rating_ok in Ht, Hf. unfold js_ge, js_le. rewrite Ht, Hf.
    reflexivity.
  - intros Ht Hf Hx Hn Hc Hs Hbase Hkey.
    rewrite (create_accepted page w Hbase Hcfg Hkey Hreq Htruthy Hr Ht Hf Hx Hn Hc Hs).
    reflexivity.
  - intros Hr. enter_create Hcfg Hreq. rewrite Htruthy. cbn [negb].
    unfold convert, rating_members in Hr. cbn [forallb] in Hr.
    destruct (coercible (get body "technicalFit")) eqn:C1.
    + rewrite (bind_pure _ _ w (@js_Number_returns _ w C1)). cbv beta.
      apply bind_threw, js_Number_raises.
      destruct (coercible (get body "functionalFit")); [discriminate Hr|reflexivity].
    + apply bind_threw, js_Number_raises, C1.
Qed.

(** [S] gives the empty string on a missing or null field and on a string
    made of white space only. *)
Lemma S_blank :
  Worker.S VUndefined = [] /\ Worker.S VNull = []
  /\ forall s : jsstring, forallb is_ws s = true -> Worker.S (VStr s) = [].
Proof.
  repeat split. intros s Hs. unfold Worker.S. simpl. apply trim_blank, Hs.
Qed.

(** C4 (amended). On a create request whose two ratings are in range and
    whose text members all convert, if [customerName], [category] or
    [solution] is empty after trimming (missing, null and white-space-only
    values included), the answer is status 400 with the one message naming
    the three fields, and no call to the store is made.  When some text
    member does not convert, the handler ends in the uncaught conversion
    error instead, whatever the three required ones hold; no call to the
    store is made then either. *)
Theorem C4_required_fields_validated (page : Env -> jsstring) (req : Request)
    (env : Env) (w : World) (body : value) :
  configured env "RESTDB_COLLECTION" ->
  create_request req body ->
  truthy body = true ->
  convert body rating_members = true ->
  rating_ok (ToNumber (get body "technicalFit")) = true ->
  rating_ok (ToNumber (get body "functionalFit")) = true ->
  (convert body text_members = true ->
   Worker.S (get body "customerName") = []
   \/ Worker.S (get body "category") = []
   \/ Worker.S (get body "solution") = [] ->
   Worker.fetch page req env w
   = (Returned
        (error_response "customerName, category, and solution are required" 400),
      []))
  /\ (convert body text_members = false ->
      Worker.fetch page req env w = (Threw (Error cannot_convert), []))
  /\ Worker.S VUndefined = []
  /\ Worker.S VNull = []
  /\ (forall s : jsstring, forallb is_ws s = true -> Worker.S (VStr s) = []).
Proof.
  intros Hcfg Hreq Htruthy Hr Ht Hf.
  split; [|split; [|exact S_blank]].
  - intros Hx Hempty.
    enter_create Hcfg Hreq. rewrite Htruthy. cbn [negb].
    pass_number Hr. pass_number Hr.
    unfold rating_ok in Ht, Hf. unfold js_ge, js_le. rewrite Ht, Hf. cbn [negb].
    do 8 pass_text Hx.
    assert (E : is_empty (Worker.S (get body "customerName"))
                || is_empty (Worker.S (get body "category"))
                || is_empty (Worker.S (get body "solution")) = true).
    { destruct Hempty as [H|[H|H]]; rewrite H; simpl;
        rewrite ?orb_true_r; reflexivity. }
    rewrite E. reflexivity.
  - intros Hx.
    enter_create Hcfg Hreq. rewrite Htruthy. cbn [negb].
    pass_number Hr. pass_number Hr.
    unfold rating_ok in Ht, Hf. unfold js_ge, js_le. rewrite Ht, Hf. cbn [negb].
    do 8 try_text.
    exfalso. unfold convert, text_members in Hx. cbn [forallb] in Hx.
    rewrite C, C0, C1, C2, C3, C4, C5, C6 in Hx. discriminate Hx.
Qed.

Lemma lookup_filter {A : Type} (keep : jsstring -> bool) (k : jsstring)
    (kvs : list (jsstring * A)) :
  keep k = true ->
  lookup k (filter (fun kv => keep (fst kv)) kvs) = lookup k kvs.
Proof.
  intros Hk. induction kvs as [|[k' v] kvs IH]; simpl; [reflexivity|].
  destruct (keep k') eqn:Ek'; simpl.
  - rewrite IH. reflexivity.
  - destruct (Str.eqb k' k) eqn:E; [|exact IH].
    apply eqb_eq in E. congruence.
Qed.

Lemma get_without_client_time (body : value) (k : string) :
  is_client_time (str k) = false ->
  get (without_client_time body) k = get body k.
Proof.
  intros Hk. destruct body; try reflexivity. simpl.
  rewrite (lookup_filter (fun k => negb (is_client_time k))); [reflexivity|].
  rewrite Hk. reflexivity.
Qed.

Lemma truthy_without_client_time (body : value) :
  truthy (without_client_time body) = truthy body.
Proof. destruct body; reflexivity. Qed.

(** The create branch reads the body through its truthiness and ten named
    members only. *)
Lemma handleItems_reads (req : Request) (env : Env) (b1 b2 : value) :
  truthy b1 = truthy b2 ->
  (forall k : string, is_client_time (str k) = false -> get b1 k = get b2 k) ->
  Worker.handleItems (with_body req (Some b1)) env
  = Worker.handleItems (with_body req (Some b2)) env.
Proof.
  intros Ht Hget. unfold Worker.handleItems, path_parts, search_param.
  cbn [method pathname searchParams headers json_body with_body].
  rewrite Ht.
  rewrite (Hget "technicalFit"%string eq_refl), (Hget "functionalFit"%string eq_refl),
    (Hget "customerName"%string eq_refl), (Hget "customerId"%string eq_refl),
    (Hget "category"%string eq_refl), (Hget "solution"%string eq_refl),
    (Hget "vendor"%string eq_refl), (Hget "notes"%string eq_refl),
    (Hget "dateImplemented"%string eq_refl),
    (Hget "contractExpiration"%string eq_refl).
  reflexivity.
Qed.

Ltac text_or_stop w :=
  match goal with
  | |- context [bind (Worker.S_call ?v) _ w] =>
      let C := fresh "Ctext" in
      destruct (coercible v) eqn:C;
      [rewrite (bind_pure _ _ w (@S_call_returns v w C)); cbv beta
      |left; rewrite (bind_threw _ _ w (@S_call_raises v w C)); reflexivity]
  end.

(** A create request makes no call to the store unless the store is
    configured and the body passes every check. *)
Lemma create_sends (page : Env -> jsstring) (req : Request) (env : Env)
    (w : World) (body : value) :
  create_request req body ->
  snd (Worker.fetch page req env w) = []
  \/ (store_configured env /\ accepted body).
Proof.
  intros Hreq.
  destruct (truthy (env_get env "RESTDB_COLLECTION")) eqn:Hcfg.
  2:{ left. destruct Hreq as [_ [Hp _]].
      rewrite (route_items _ _ _ Hp). unfold Worker.handleItems, js_or.
      rewrite Hcfg. reflexivity. }
  assert (Hcfg' : configured env "RESTDB_COLLECTION") by exact Hcfg.
  enter_create Hcfg' Hreq.
  destruct (truthy body) eqn:Htruthy; [|left; reflexivity]. cbn [negb].
  destruct (coercible (get body "technicalFit")) eqn:Ct.
  2:{ left. rewrite (bind_threw _ _ w (@js_Number_raises _ w Ct)). reflexivity. }
  rewrite (bind_pure _ _ w (@js_Number_returns _ w Ct)). cbv beta.
  destruct (coercible (get body "functionalFit")) eqn:Cf.
  2:{ left. rewrite (bind_threw _ _ w (@js_Number_raises _ w Cf)). reflexivity. }
  rewrite (bind_pure _ _ w (@js_Number_returns _ w Cf)). cbv beta.
  unfold js_ge, js_le.
  destruct (rating_ok (ToNumber (get body "technicalFit"))) eqn:Ht;
    pose proof Ht as Ht'; unfold rating_ok in Ht'; rewrite Ht';
    [|left; reflexivity]. cbn [negb].
  destruct (rating_ok (ToNumber (get body "functionalFit"))) eqn:Hf;
    pose proof Hf as Hf'; unfold rating_ok in Hf'; rewrite Hf';
    [|left; reflexivity]. cbn [negb].
  do 8 text_or_stop w.
  destruct (is_empty (Worker.S (get body "customerName"))) eqn:En;
    [left; reflexivity|].
  destruct (is_empty (Worker.S (get body "category"))) eqn:Ec;
    [left; reflexivity|].
  destruct (is_empty (Worker.S (get body "solution"))) eqn:Es;
    [left; reflexivity|].
  cbn [orb].
  rewrite (bind_pure _ _ w (eq_refl : current_time w = (Returned (now w), []))).
  cbv beta.
  destruct (truthy (env_get env "RESTDB_BASE")) eqn:Hbase.
  2:{ left. unfold Worker.restdbFetch, Worker.requireEnv. cbn [filter].
      rewrite Hbase, Hcfg. cbn [negb].
      destruct (truthy (env_get env "RESTDB_API_KEY")); reflexivity. }
  destruct (truthy (env_get env "RESTDB_API_KEY")) eqn:Hkey.
  2:{ left. unfold Worker.restdbFetch, Worker.requireEnv. cbn [filter].
      rewrite Hbase, Hcfg, Hkey. reflexivity. }
  right. split; [repeat split; assumption|].
  unfold accepted, convert, rating_members, text_members. cbn [forallb].
  rewrite Ct, Cf, Ctext, Ctext0, Ctext1, Ctext2, Ctext3, Ctext4, Ctext5, Ctext6.
  repeat split; try assumption; apply is_empty_false; assumption.
Qed.

(** C5. A create request sends a document to the store exactly when it
    is accepted: the store is configured and the body passes every check
    (it is truthy, both ratings convert to numbers in range, the texts
    convert, the three required ones are not empty).  The handler then
    makes exactly one call, the POST of the document, whatever the store
    says afterwards, and ends as the store's answer has it.  The
    document's [timeCode] and [timeLabel] are the code and label that
    [computeTIME] gives for the submitted [technicalFit] and
    [functionalFit]; and a body that differs only in [timeCode] and
    [timeLabel] members leads to the same call and the same end. *)
Theorem C5_time_recomputed (page : Env -> jsstring) (req : Request)
    (env : Env) (w : World) (body : value) :
  create_request req body ->
  let doc := Worker.create_doc body (now w) in
  let time :=
    Worker.computeTIME (get body "technicalFit") (get body "functionalFit") in
  (store_configured env ->
   accepted body ->
   Worker.fetch page req env w
   = (after_call w (create_call env doc)
        (fun res => relayed res [field "item" (Worker.store_data res)]
                      (Worker.store_data res)),
      [create_call env doc]))
  /\ (snd (Worker.fetch page req env w) <> [] ->
      store_configured env /\ accepted body)
  /\ call_method (create_call env doc) = str "POST"
  /\ call_body (create_call env doc) = Some (JSON_stringify doc)
  /\ get doc "timeCode" = VStr (code time)
  /\ get doc "timeLabel" = VStr (label time)
  /\ (forall body' : value,
        without_client_time body' = without_client_time body ->
        Worker.fetch page (with_body req (Some body')) env w
        = Worker.fetch page req env w).
Proof.
  intros Hreq doc time.
  assert (Hsame : forall b1 : value,
             Worker.handleItems (with_body req (Some b1)) env
             = Worker.handleItems (with_body req (Some (without_client_time b1))) env).
  { intros b1. apply handleItems_reads.
    - symmetry. apply truthy_without_client_time.
    - intros k Hk. symmetry. apply get_without_client_time, Hk. }
  split; [|split; [|split; [reflexivity|split; [reflexivity|split;
           [reflexivity|split; [reflexivity|]]]]]].
  - intros [Hbase [Hcfg Hkey]] [Htruthy [Hr [Ht [Hf [Hx [Hn [Hc Hs]]]]]]].
    subst doc. apply create_accepted; assumption.
  - intros Hsent. destruct (create_sends page env w Hreq) as [Hnone|Hall];
      [contradiction|exact Hall].
  - intros body' Hsame_body. destruct Hreq as [Hm [Hp Hb]].
    rewrite !route_items by exact Hp.
    rewrite Hsame, Hsame_body, <- Hsame.
    unfold Worker.handleItems, path_parts, search_param.
    cbn [method pathname searchParams headers json_body with_body].
    rewrite Hb. reflexivity.
Qed.

(** ** The customer summary *)

Lemma count_record_tally (m : CountMap) (it : value) (n : jsstring) :
  tally (Worker.count_record m it) n
  = tally m n
    + (if negb (is_empty n) && Str.eqb (Worker.record_name it) n then 1 else 0).
Proof.
  unfold Worker.count_record.
  destruct (is_empty (Worker.record_name it)) eqn:Ename.
  - apply is_empty_true in Ename. rewrite Ename.
    destruct n; simpl; lia.
  - destruct (Str.eqb (Worker.record_name it) n) eqn:E.
    + apply eqb_eq in E. subst n. rewrite Ename. simpl.
      unfold tally at 1. rewrite lookup_map_set_same. reflexivity.
    + apply eqb_neq in E. rewrite andb_false_r.
      unfold tally at 1. rewrite lookup_map_set_other by congruence.
      unfold tally. lia.
Qed.

Lemma count_record_well (m : CountMap) (it : value) :
  well_counted m -> well_counted (Worker.count_record m it).
Proof.
  intros [Hnodup Hpos]. unfold Worker.count_record.
  destruct (is_empty (Worker.record_name it)) eqn:Ename; [split; assumption|].
  split; [apply map_set_nodup, Hnodup|].
  intros k c Hk.
  destruct (Str.eqb (Worker.record_name it) k) eqn:E.
  - apply eqb_eq in E. subst k. rewrite lookup_map_set_same in Hk.
    injection Hk as <-. split; [apply is_empty_false, Ename|].
    destruct (lookup (Worker.record_name it) m) as [c|] eqn:El; [|lia].
    destruct (Hpos _ _ El). lia.
  - apply eqb_neq in E. rewrite lookup_map_set_other in Hk by congruence.
    apply Hpos, Hk.
Qed.

Lemma fold_count_well (items : list value) (m : CountMap) :
  well_counted m -> well_counted (fold_left Worker.count_record items m).
Proof.
  revert m. induction items as [|it items IH]; simpl; intros m Hm; [exact Hm|].
  apply IH, count_record_well, Hm.
Qed.

Lemma fold_count_tally (items : list value) (m : CountMap) (n : jsstring) :
  n <> [] ->
  tally (fold_left Worker.count_record items m) n
  = tally m n + Z.of_nat (List.length (bearing n items)).
Proof.
  intros Hn. revert m. induction items as [|it items IH]; simpl; intros m; [lia|].
  rewrite IH, count_record_tally.
  apply is_empty_false in Hn. rewrite Hn. cbn [negb andb].
  destruct (Str.eqb (Worker.record_name it) n); simpl List.length; lia.
Qed.

(** The map the loop ends with holds exactly the names borne by some
    record, each with the number of records that bear it. *)
Lemma counted_names (items : list value) (n : jsstring) (c : Z) :
  lookup n (fold_left Worker.count_record items []) = Some c
  <-> n <> [] /\ 0 < c /\ c = Z.of_nat (List.length (bearing n items)).
Proof.
  assert (Hwell : well_counted (fold_left Worker.count_record items [])).
  { apply fold_count_well. split; [constructor|]. intros k c' H. discriminate H. }
  split.
  - intros H. destruct (proj2 Hwell _ _ H) as [Hn Hc].
    split; [exact Hn|]. split; [exact Hc|].
    pose proof (fold_count_tally items [] Hn) as Ht.
    unfold tally in Ht. rewrite H in Ht. simpl in Ht. lia.
  - intros [Hn [Hc Hcount]].
    pose proof (fold_count_tally items [] Hn) as Ht.
    unfold tally in Ht. simpl in Ht.
    destruct (lookup n (fold_left Worker.count_record items [])) as [c'|];
      [f_equal; lia|lia].
Qed.

Lemma summarize_perm (items : list value) :
  Permutation (Worker.summarize items)
    (map (fun e => {| Worker.customerName := fst e; Worker.count := snd e |})
       (fold_left Worker.count_record items [])).
Proof. unfold Worker.summarize. apply sort_perm. Qed.

Lemma summarize_in (items : list value) (c : Worker.Customer) :
  In c (Worker.summarize items)
  <-> Worker.customerName c <> []
      /\ 0 < Worker.count c
      /\ Worker.count c
         = Z.of_nat (List.length (bearing (Worker.customerName c) items)).
Proof.
  assert (Hwell : well_counted (fold_left Worker.count_record items [])).
  { apply fold_count_well. split; [constructor|]. intros k c' H. discriminate H. }
  split.
  - intros H. apply (Permutation_in _ (summarize_perm items)) in H.
    apply in_map_iff in H as [[k v] [<- H]]. simpl.
    apply counted_names. apply lookup_in; [exact (proj1 Hwell)|exact H].
  - intros H. apply counted_names in H.
    apply lookup_in in H; [|exact (proj1 Hwell)].
    apply (Permutation_in _ (Permutation_sym (summarize_perm items))).
    apply in_map_iff. exists (Worker.customerName c, Worker.count c).
    split; [destruct c; reflexivity|exact H].
Qed.

Lemma summarize_nodup (items : list value) :
  NoDup (map Worker.customerName (Worker.summarize items)).
Proof.
  assert (Hwell : well_counted (fold_left Worker.count_record items [])).
  { apply fold_count_well. split; [constructor|]. intros k c' H. discriminate H. }
  apply (Permutation_NoDup (l := map fst (fold_left Worker.count_record items []))).
  - apply Permutation_sym.
    apply perm_trans with
      (map Worker.customerName
         (map (fun e => {| Worker.customerName := fst e; Worker.count := snd e |})
            (fold_left Worker.count_record items []))).
    + apply Permutation_map, summarize_perm.
    + rewrite map_map. simpl. apply Permutation_refl.
  - exact (proj1 Hwell).
Qed.

(** The name read off a record whose [customerName] is a string is that
    string trimmed; a record without the member has the empty name. *)
Lemma record_name_string (it : value) (s : jsstring) :
  get it "customerName" = VStr s -> Worker.record_name it = trim s.
Proof.
  intros H. unfold Worker.record_name. rewrite H.
  destruct it; try discriminate H. simpl.
  destruct s; reflexivity.
Qed.

Lemma record_name_missing (it : value) :
  get it "customerName" = VUndefined -> Worker.record_name it = [].
Proof.
  intros H. unfold Worker.record_name. rewrite H. simpl.
  rewrite andb_false_r. reflexivity.
Qed.

Lemma name_call_returns (it : value) (w : World) :
  name_converts it = true ->
  Worker.name_call it w = (Returned (Worker.record_name it), []).
Proof.
  unfold name_converts, Worker.name_call, Worker.record_name, js_String.
  destruct (truthy it && truthy (get it "customerName")); cbn [negb orb];
    intros H; [rewrite H|]; reflexivity.
Qed.

Lemma name_call_raises (it : value) (w : World) :
  name_converts it = false ->
  Worker.name_call it w = (Threw (Error cannot_convert), []).
Proof.
  unfold name_converts, Worker.name_call, js_String.
  destruct (truthy it && truthy (get it "customerName")); cbn [negb orb];
    intros H; [rewrite H; reflexivity|discriminate H].
Qed.

(** The loop as it runs ends with the map of the turns when every name
    converts, and in the conversion error at the first that does not. *)
Lemma count_loop_returns (items : list value) (m : CountMap) (w : World) :
  forallb name_converts items = true ->
  Worker.count_loop items m w
  = (Returned (fold_left Worker.count_record items m), []).
Proof.
  revert m. induction items as [|it items IH]; intros m H; [reflexivity|].
  cbn [forallb] in H. apply andb_true_iff in H as [Hit Hrest].
  cbn [Worker.count_loop fold_left].
  rewrite (bind_pure _ _ w (@name_call_returns it w Hit)).
  apply IH, Hrest.
Qed.

Lemma count_loop_raises (items : list value) (m : CountMap) (w : World) :
  forallb name_converts items = false ->
  Worker.count_loop items m w = (Threw (Error cannot_convert), []).
Proof.
  revert m. induction items as [|it items IH]; intros m H; [discriminate H|].
  cbn [forallb] in H. cbn [Worker.count_loop].
  destruct (name_converts it) eqn:Hit.
  - rewrite (bind_pure _ _ w (@name_call_returns it w Hit)). apply IH, H.
  - apply bind_threw, name_call_raises, Hit.
Qed.

(** C7 (amended). For a collation that is a consistent comparator, and
    with the store configured: when the store answers the summary's call
    with a success status and an array of records whose names all convert
    to strings, [GET /api/customers] answers 200 with [{ok: true,
    customers}] after that one call, each row being an object with the
    members [customerName] and [count]; the rows carry pairwise different
    names; a row is present exactly when its name is not empty and is
    borne by at least one record, with the number of the records that bear
    it as its count; and the rows ascend in the collation order.  The name
    a record bears is its [customerName] trimmed; a record without one
    bears the empty name and is skipped; a name that is a string always
    converts.  When the name of some record does not convert, the handler
    ends in the uncaught conversion error after its call to the store. *)
Theorem C7_customer_summary (page : Env -> jsstring) (req : Request)
    (env : Env) (w : World) (res : StoreResponse) (items : list value) :
  (forall a b, 0 < localeCompare a b -> localeCompare b a <= 0) ->
  (forall a b c, localeCompare a b <= 0 -> localeCompare b c <= 0 ->
                 localeCompare a c <= 0) ->
  configured env "RESTDB_BASE" ->
  configured env "RESTDB_COLLECTION" ->
  configured env "RESTDB_API_KEY" ->
  method req = str "GET" ->
  pathname req = str "/api/customers" ->
  upstream w (customers_call env) = Fetched res ->
  ok res = true ->
  Worker.store_data res = VArr items ->
  let customers := Worker.summarize items in
  let rows :=
    map (fun c => customer_row (Worker.customerName c) (Worker.count c)) customers in
  (forallb name_converts items = true ->
   Worker.fetch page req env w
   = (Returned
        {| status := 200;
           response_headers :=
             [(str "content-type", str "application/json; charset=utf-8")];
           body :=
             JSON_stringify_indented
               (VObj [field "ok" (VBool true); field "customers" (VArr rows)]) |},
      [customers_call env]))
  /\ (forallb name_converts items = false ->
      Worker.fetch page req env w
      = (Threw (Error cannot_convert), [customers_call env]))
  /\ (forall c : Worker.Customer,
        get (customer_row (Worker.customerName c) (Worker.count c)) "customerName"
        = VStr (Worker.customerName c)
        /\ get (customer_row (Worker.customerName c) (Worker.count c)) "count"
           = VNum (number_of_count (Worker.count c)))
  /\ NoDup (map Worker.customerName customers)
  /\ (forall c : Worker.Customer,
        In c customers
        <-> Worker.customerName c <> []
            /\ 0 < Worker.count c
            /\ Worker.count c
               = Z.of_nat (List.length (bearing (Worker.customerName c) items)))
  /\ StronglySorted by_name customers
  /\ (forall (it : value) (s : jsstring),
        get it "customerName" = VStr s ->
        Worker.record_name it = trim s /\ name_converts it = true)
  /\ (forall it : value,
        get it "customerName" = VUndefined ->
        Worker.record_name it = [] /\ name_converts it = true).
Proof.
  intros Hcons Htrans Hbase Hcfg Hkey Hm Hp Hup Hok Hdata customers rows.
  assert (Henter : Worker.fetch page req env w
                   = (fst (bind (Worker.count_loop items [])
                             (fun map =>
                                Worker.json_call
                                  (VObj [field "ok" (VBool true);
                                         field "customers"
                                           (VArr (List.map Worker.customer_value
                                                    (Worker.rows_of map)))])
                                  200) w),
                      [customers_call env]
                      ++ snd (bind (Worker.count_loop items [])
                                (fun map =>
                                   Worker.json_call
                                     (VObj [field "ok" (VBool true);
                                            field "customers"
                                              (VArr (List.map Worker.customer_value
                                                       (Worker.rows_of map)))])
                                     200) w))).
  { rewrite (route_customers _ _ _ Hp). unfold Worker.handleCustomers.
    rewrite Hm. change (Str.eqb (str "GET") (str "GET")) with true. cbn [negb].
    unfold customers_call, collection in Hup |- *.
    rewrite (bind_returned _ _ w (restdbFetch_answer _ _ w Hbase Hcfg Hkey Hup)).
    cbv beta iota. rewrite Hok, Hdata. reflexivity. }
  split; [|split; [|split; [|split; [apply summarize_nodup|split;
           [apply summarize_in|split; [|split]]]]]].
  - intros Hnames. rewrite Henter.
    rewrite (bind_pure _ _ w (@count_loop_returns items [] w Hnames)).
    rewrite json_call_answers.
    unfold rows, customers, Worker.summarize, Worker.rows_of.
    reflexivity.
  - intros Hnames. rewrite Henter.
    rewrite (bind_threw _ _ w (@count_loop_raises items [] w Hnames)).
    reflexivity.
  - intros c. split; reflexivity.
  - unfold customers, Worker.summarize.
    apply sort_sorted.
    + intros a b. apply Hcons.
    + intros a b c. apply Htrans.
  - intros it s H. split; [apply record_name_string, H|].
    unfold name_converts. rewrite H. apply orb_true_r.
  - intros it H. split; [apply record_name_missing, H|].
    unfold name_converts. rewrite H. apply orb_true_r.
Qed.

(** ** Listing records *)

Lemma list_filter_customerName (n i c : jsstring) (v : value) :
  lookup (str "customerName") (Worker.list_filter n i c) = Some v
  <-> n <> [] /\ v = VStr n.
Proof.
  unfold Worker.list_filter. split.
  - destruct n, i, c; simpl; intros H; try discriminate H;
      injection H as <-; (split; [discriminate|reflexivity]).
  - intros [Hn ->]. destruct n; [contradiction|]. reflexivity.
Qed.

Lemma list_filter_category (n i c : jsstring) (v : value) :
  lookup (str "category") (Worker.list_filter n i c) = Some v
  <-> c <> [] /\ v = VStr c.
Proof.
  unfold Worker.list_filter. split.
  - destruct n, i, c; simpl; intros H; try discriminate H;
      injection H as <-; (split; [discriminate|reflexivity]).
  - intros [Hc ->]. destruct c; [contradiction|]. destruct n, i; reflexivity.
Qed.

Lemma list_filter_customerId (n i c : jsstring) (v : value) :
  lookup (str "customerId") (Worker.list_filter n i c) = Some v
  <-> n = [] /\ i <> [] /\ v = VStr i.
Proof.
  unfold Worker.list_filter. split.
  - destruct n, i, c; simpl; intros H; try discriminate H;
      injection H as <-; (split; [reflexivity|split; [discriminate|reflexivity]]).
  - intros [-> [Hi ->]]. destruct i; [contradiction|]. destruct c; reflexivity.
Qed.

Lemma list_filter_empty (n i c : jsstring) :
  Worker.list_filter n i c = [] <-> n = [] /\ i = [] /\ c = [].
Proof.
  unfold Worker.list_filter. split.
  - destruct n, i, c; simpl; intros H; try discriminate H; auto.
  - intros [-> [-> ->]]. reflexivity.
Qed.

Lemma list_filter_keys (n i c : jsstring) (k : jsstring) (v : value) :
  In (k, v) (Worker.list_filter n i c) ->
  k = str "customerName" \/ k = str "customerId" \/ k = str "category".
Proof.
  unfold Worker.list_filter, field.
  destruct n, i, c; simpl; intros H;
    repeat (destruct H as [H|H]; [injection H as <- _; auto|]);
    destruct H.
Qed.

Lemma store_data_empty (res : StoreResponse) :
  store_text res = None \/ store_text res = Some [] ->
  Worker.store_data res = VNull.
Proof. unfold Worker.store_data. intros [->| ->]; reflexivity. Qed.

(** C9 (amended). With the store configured, [GET /api/items] makes one
    call whose query carries a filter object with a [customerName] entry
    exactly when that parameter is not blank, a [category] entry exactly
    when that parameter is not blank, a [customerId] entry exactly when
    [customerName] is blank and [customerId] is not, and nothing else; the
    filter is left out exactly when all three are blank; the sort
    descriptor [{createdAt: -1}] is always there.  A success answer that
    is an array is passed on as [{ok: true, items}] with status 200, one
    that is not an array (an empty body included) gives [items: []].  Any
    other answer is passed on with the store's data as the error and the
    store's status, when that is a status a response with a body may
    carry; when it is not, the handler ends in the error of
    [new Response]. *)
Theorem C9_list_query (page : Env -> jsstring) (req : Request) (env : Env)
    (w : World) (res : StoreResponse) :
  configured env "RESTDB_BASE" ->
  configured env "RESTDB_COLLECTION" ->
  configured env "RESTDB_API_KEY" ->
  method req = str "GET" ->
  pathname req = str "/api/items" ->
  upstream w (list_call env req) = Fetched res ->
  let customerName := trim (search_param req "customerName") in
  let customerId := trim (search_param req "customerId") in
  let category := trim (search_param req "category") in
  let q := request_filter req in
  let data := Worker.store_data res in
  Worker.fetch page req env w
  = (relayed res [field "items" (if isArray data then data else VArr [])] data,
     [list_call env req])
  /\ call_method (list_call env req) = str "GET"
  /\ call_url (list_call env req)
     = strip_trailing_slash (ToString (env_get env "RESTDB_BASE"))
       ++ str "/rest/" ++ collection env ++ Worker.list_query q
  /\ (forall v, lookup (str "customerName") q = Some v
                <-> customerName <> [] /\ v = VStr customerName)
  /\ (forall v, lookup (str "category") q = Some v
                <-> category <> [] /\ v = VStr category)
  /\ (forall v, lookup (str "customerId") q = Some v
                <-> customerName = [] /\ customerId <> [] /\ v = VStr customerId)
  /\ (forall k v, In (k, v) q ->
        k = str "customerName" \/ k = str "customerId" \/ k = str "category")
  /\ (q = [] <-> customerName = [] /\ customerId = [] /\ category = [])
  /\ (q = [] -> Worker.list_query q = str "?sort=" ++ newest_first)
  /\ (q <> [] ->
      Worker.list_query q
      = str "?q=" ++ encodeURIComponent (JSON_stringify (VObj q))
        ++ str "&sort=" ++ newest_first)
  /\ (forall items, ok res = true -> data = VArr items ->
        fst (Worker.fetch page req env w)
        = Returned (reply (VObj [field "ok" (VBool true);
                                 field "items" (VArr items)]) 200))
  /\ (ok res = true -> isArray data = false ->
      fst (Worker.fetch page req env w)
      = Returned (reply (VObj [field "ok" (VBool true);
                               field "items" (VArr [])]) 200))
  /\ (store_text res = None \/ store_text res = Some [] -> data = VNull)
  /\ (ok res = false -> status_accepted (store_status res) = true ->
      fst (Worker.fetch page req env w)
      = Returned (reply (VObj [field "ok" (VBool false); field "error" data])
                    (store_status res)))
  /\ (ok res = false -> status_accepted (store_status res) = false ->
      fst (Worker.fetch page req env w)
      = Threw (Error (invalid_status (store_status res)))).
Proof.
  intros Hbase Hcfg Hkey Hm Hp Hup customerName customerId category q data.
  assert (E : Worker.fetch page req env w
              = (relayed res [field "items"
                                (if isArray data then data else VArr [])] data,
                 [list_call env req])).
  { destruct (collection_name Hcfg) as [s [Es Hs]].
    rewrite (route_items _ _ _ Hp). unfold Worker.handleItems.
    rewrite Es, Hs, (no_id _ Hp), Hm.
    change (Str.eqb (str "GET") (str "GET")) with true. cbn [andb].
    unfold list_call, request_filter, collection in Hup |- *.
    rewrite Es in Hup |- *.
    rewrite (bind_returned _ _ w (restdbFetch_answer _ _ w Hbase Hcfg Hkey Hup)).
    cbv beta iota. unfold relayed. subst data.
    destruct (ok res); cbn [negb]; rewrite json_call_answers; reflexivity. }
  split; [exact E|].
  split; [reflexivity|].
  split; [reflexivity|].
  split; [intros v; apply list_filter_customerName|].
  split; [intros v; apply list_filter_category|].
  split; [intros v; apply list_filter_customerId|].
  split; [intros k v; apply list_filter_keys|].
  split; [apply list_filter_empty|].
  split; [intros ->; reflexivity|].
  split; [intros Hq; destruct q; [contradiction|reflexivity]|].
  split; [|split; [|split; [|split]]].
  - intros items Hok Hd. rewrite E. unfold relayed. rewrite Hok, Hd. reflexivity.
  - intros Hok Hd. rewrite E. unfold relayed. rewrite Hok, Hd. reflexivity.
  - apply store_data_empty.
  - intros Hok Hs. rewrite E. unfold relayed, answered. rewrite Hok, Hs. reflexivity.
  - intros Hok Hs. rewrite E. unfold relayed, answered. rewrite Hok, Hs. reflexivity.
Qed.

(** ** The shared-secret gate *)

Lemma env_get_agree (env env' : Env) (k : string) :
  (forall k' : jsstring, k' <> str "APP_SHARED_TOKEN" -> lookup k' env' = lookup k' env) ->
  str k <> str "APP_SHARED_TOKEN" ->
  env_get env' k = env_get env k.
Proof. intros H Hk. unfold env_get. rewrite (H _ Hk). reflexivity. Qed.

(** The latest revision reads the request through its method, path, query
    parameters and body, and the environment through the three store
    settings. *)
Lemma fetch_reads (page : Env -> jsstring) (req req' : Request) (env env' : Env) :
  method req' = method req ->
  pathname req' = pathname req ->
  searchParams req' = searchParams req ->
  json_body req' = json_body req ->
  page env' = page env ->
  env_get env' "RESTDB_BASE" = env_get env "RESTDB_BASE" ->
  env_get env' "RESTDB_COLLECTION" = env_get env "RESTDB_COLLECTION" ->
  env_get env' "RESTDB_API_KEY" = env_get env "RESTDB_API_KEY" ->
  Worker.fetch page req' env' = Worker.fetch page req env.
Proof.
  intros Hm Hp Hs Hb Hpage H1 H2 H3.
  unfold Worker.fetch, Worker.handleApi, Worker.handleItems, Worker.handleCustomers,
    Worker.restdbFetch, Worker.requireEnv, Worker.store_call, path_parts, search_param.
  cbn [filter].
  rewrite Hm, Hp, Hs, Hb, Hpage, H1, H2, H3. reflexivity.
Qed.

(** The header that [get] finds when a name occurs once, in whatever
    case, is that header's value. *)
Lemma headers_get_single (sent : jsstring) (v : jsstring) (name : string) :
  lower sent = lower (str name) ->
  headers_get [(sent, v)] name = Some (header_value v).
Proof.
  intros H. unfold headers_get. cbn [filter fst]. rewrite H, eqb_refl. reflexivity.
Qed.

(** C6 (amended). In the revisions that carry the gate, with the secret
    configured, a request whose [x-app-token] header, as [headers.get]
    reads it, is absent or differs from the secret is answered 401 with
    [{ok: false, error: "Unauthorized"}] whenever its path starts with
    [/api/items], whatever its method and the rest of its path, before the
    items handler runs and without any call to the store.  A path under
    [/api/] outside that prefix gets the plain 404 from these revisions,
    whatever the secret and whatever token the request carries.  The
    latest revision has no gate: its answer does not depend on the secret
    or on the request headers. *)
Theorem C6_token_gate (page : Env -> jsstring)
    (handleItems : Request -> Env -> Eff Response)
    (req : Request) (env : Env) (w : World) :
  (forall secret : jsstring,
      lookup (str "APP_SHARED_TOKEN") env = Some secret ->
      secret <> [] ->
      headers_get (headers req) "x-app-token" <> Some secret ->
      startsWith (pathname req) (str "/api/items") = true ->
      Gated.fetch page handleItems req env w
      = (Returned (error_response "Unauthorized" 401), []))
  /\ (startsWith (pathname req) (str "/api/") = true ->
      startsWith (pathname req) (str "/api/items") = false ->
      Gated.fetch page handleItems req env w = (Returned plain_not_found, []))
  /\ (forall (req' : Request) (env' : Env),
        method req' = method req ->
        pathname req' = pathname req ->
        searchParams req' = searchParams req ->
        json_body req' = json_body req ->
        page env' = page env ->
        (forall k : jsstring,
            k <> str "APP_SHARED_TOKEN" -> lookup k env' = lookup k env) ->
        Worker.fetch page req' env' w = Worker.fetch page req env w).
Proof.
  assert (Hroot : forall p, startsWith p (str "/api/") = true ->
                            Str.eqb p (str "/") = false).
  { intros p Hp. apply eqb_neq. intros ->. discriminate Hp. }
  assert (Hroot' : forall p, startsWith p (str "/api/items") = true ->
                             Str.eqb p (str "/") = false).
  { intros p Hp. apply eqb_neq. intros ->. discriminate Hp. }
  split; [|split].
  - intros secret Hsecret Hne Hheader Hp.
    unfold Gated.fetch. rewrite (Hroot' _ Hp), Hp.
    assert (E : Str.eqb (Gated.header_or_empty req "x-app-token") secret = false).
    { apply eqb_neq. unfold Gated.header_or_empty.
      destruct (headers_get (headers req) "x-app-token") as [s|].
      - intros ->. apply Hheader. reflexivity.
      - intros <-. apply Hne. reflexivity. }
    unfold env_get. rewrite Hsecret.
    destruct secret as [|c secret]; [contradiction|].
    cbn [truthy is_empty negb ToString]. rewrite E. reflexivity.
  - intros Hp Hitems. unfold Gated.fetch. rewrite (Hroot _ Hp), Hitems.
    reflexivity.
  - intros req' env' Hm Hp Hs Hb Hpage Henv.
    rewrite (@fetch_reads page req req' env env'); try assumption; try reflexivity;
      apply env_get_agree; try assumption; discriminate.
Qed.

(** ** Missing configuration *)

(** C8. Where the code departs from the claim: with [RESTDB_API_KEY]
    missing, [GET /api/customers] ends in the uncaught error of
    [requireEnv]; with [RESTDB_BASE] missing, so does [GET /api/items];
    neither produces a response.  A store that cannot be reached ends the
    handler in the rejection of [fetch]. *)
Theorem C8_missing_setting_uncaught (page : Env -> jsstring) (w : World) :
  Worker.fetch page (Example.request "GET" "/api/customers" [] None)
    [(str "RESTDB_BASE", str "https://db.example/");
     (str "RESTDB_COLLECTION", str "matrix")] w
  = (Threw (Error (str "Missing env vars: RESTDB_API_KEY")), [])
  /\ Worker.fetch page (Example.request "GET" "/api/items" [] None)
       [(str "RESTDB_COLLECTION", str "matrix");
        (str "RESTDB_API_KEY", str "k")] w
     = (Threw (Error (str "Missing env vars: RESTDB_BASE")), [])
  /\ Worker.fetch page (Example.request "GET" "/api/customers" [] None) [] w
     = (Threw (Error (str "Missing env vars: RESTDB_BASE, RESTDB_COLLECTION, RESTDB_API_KEY")),
        [])
  /\ fst (Worker.fetch page (Example.request "GET" "/api/customers" [] None)
            Example.env Example.offline)
     = Threw FetchRejected.
Proof. repeat split. Qed.

End Claims.

(** * The statements on concrete requests *)

(** ** Collation by code units is a consistent comparator *)

Lemma compare_units_consistent (a b : jsstring) :
  0 < Example.compare_units a b -> Example.compare_units b a <= 0.
Proof.
  revert b. induction a as [|x a IH]; intros [|y b]; simpl; try lia.
  rewrite (N.compare_antisym x y).
  destruct (N.compare x y); simpl; try lia. apply IH.
Qed.

Lemma compare_units_transitive (a b c : jsstring) :
  Example.compare_units a b <= 0 ->
  Example.compare_units b c <= 0 ->
  Example.compare_units a c <= 0.
Proof.
  revert b c. induction a as [|x a IH]; intros [|y b] [|z c]; simpl; try lia.
  destruct (N.compare_spec x y) as [Exy|Hxy|Hxy]; try lia;
    destruct (N.compare_spec y z) as [Eyz|Hyz|Hyz]; try lia; intros H1 H2.
  - subst. rewrite N.compare_refl. eapply IH; eassumption.
  - subst. apply N.compare_lt_iff in Hyz. rewrite Hyz. lia.
  - subst. apply N.compare_lt_iff in Hxy. rewrite Hxy. lia.
  - assert (Hxz : (x < z)%N) by lia.
    apply N.compare_lt_iff in Hxz. rewrite Hxz. lia.
Qed.

(** ** Witnesses and counterexamples *)

(** C3 at a body whose [technicalFit] is 0, and at the ratings 1 and 5,
    which pass. *)
Lemma C3_witness :
  Worker.fetch (host := Example.host) Example.page
    (Example.request "POST" "/api/items" []
       (Some (Example.submission (rating 0) (rating 5) "Acme")))
    Example.env Example.world
  = (Returned (error_response (host := Example.host) "technicalFit must be 1-5" 400),
     [])
  /\ snd (Worker.fetch (host := Example.host) Example.page
            (Example.request "POST" "/api/items" []
               (Some (Example.submission (rating 1) (rating 5) "Acme")))
            Example.env Example.world)
     = [create_call (host := Example.host) Example.env
          (Worker.create_doc (host := Example.host)
             (Example.submission (rating 1) (rating 5) "Acme") Example.clock)].
Proof.
  split.
  - refine (proj1 (proj1 (@C3_rating_range_validated Example.host Example.page
                            (Example.request "POST" "/api/items" []
                               (Some (Example.submission (rating 0) (rating 5) "Acme")))
                            Example.env Example.world
                            (Example.submission (rating 0) (rating 5) "Acme") _ _ _)
                     _) _); try reflexivity.
    repeat split.
  - refine (proj2 (proj2 (proj1
              (@C3_rating_range_validated Example.host Example.page
                 (Example.request "POST" "/api/items" []
                    (Some (Example.submission (rating 1) (rating 5) "Acme")))
                 Example.env Example.world
                 (Example.submission (rating 1) (rating 5) "Acme") _ _ _)
              _)) _ _ _ _ _ _ _ _); try reflexivity; try discriminate.
    repeat split.
Defined.

(** C3, the claim as stated fails: a [technicalFit] that is an object
    with a member of its own called [toString] does not convert to a
    number, and the request is not answered at all. *)
Lemma C3_counterexample :
  let body := Example.submission Example.shadowed (rating 5) "Acme" in
  truthy body = true
  /\ coercible (get body "technicalFit") = false
  /\ Worker.fetch (host := Example.host) Example.page
       (Example.request "POST" "/api/items" [] (Some body))
       Example.env Example.world
     = (Threw (Error (str "Cannot convert object to primitive value")), []).
Proof. repeat split. Qed.

(** C4 at a body whose [customerName] is two spaces. *)
Lemma C4_witness :
  Worker.fetch (host := Example.host) Example.page
    (Example.request "POST" "/api/items" []
       (Some (Example.submission (rating 1) (rating 5) "  ")))
    Example.env Example.world
  = (Returned
       (error_response (host := Example.host)
          "customerName, category, and solution are required" 400),
     []).
Proof.
  refine (proj1 (@C4_required_fields_validated Example.host Example.page
                   (Example.request "POST" "/api/items" []
                      (Some (Example.submission (rating 1) (rating 5) "  ")))
                   Example.env Example.world
                   (Example.submission (rating 1) (rating 5) "  ") _ _ _ _ _ _)
            _ _); try reflexivity.
  - repeat split.
  - left. reflexivity.
Defined.

(** C4, the claim as stated fails: with both ratings in range and an
    empty [customerName], a [vendor] that does not convert to a string
    leaves the request without an answer. *)
Lemma C4_counterexample :
  let body :=
    VObj [field "customerName" (VStr (str "  "));
          field "category" (VStr (str "AI"));
          field "solution" (VStr (str "Assistant"));
          field "vendor" Example.shadowed;
          field "technicalFit" (rating 3);
          field "functionalFit" (rating 3)] in
  rating_ok (ToNumber (host := Example.host) (get body "technicalFit")) = true
  /\ rating_ok (ToNumber (host := Example.host) (get body "functionalFit")) = true
  /\ Worker.S (host := Example.host) (get body "customerName") = []
  /\ coercible (get body "vendor") = false
  /\ Worker.fetch (host := Example.host) Example.page
       (Example.request "POST" "/api/items" [] (Some body))
       Example.env Example.world
     = (Threw (Error (str "Cannot convert object to primitive value")), []).
Proof. repeat split. Qed.

(** C5 at a complete body that also carries [timeCode: "I"]: the
    document is posted, and the stored code is the one of the ratings 5
    and 2. *)
Lemma C5_witness :
  snd (Worker.fetch (host := Example.host) Example.page
         (Example.request "POST" "/api/items" []
            (Some (Example.submission (VStr (str "5")) (rating 2) " Acme ")))
         Example.env Example.world)
  = [create_call (host := Example.host) Example.env
       (Worker.create_doc (host := Example.host)
          (Example.submission (VStr (str "5")) (rating 2) " Acme ")
          Example.clock)]
  /\ get (Worker.create_doc (host := Example.host)
            (Example.submission (VStr (str "5")) (rating 2) " Acme ")
            Example.clock)
       "timeCode"
     = VStr (str "T").
Proof.
  split.
  - refine (f_equal snd (proj1
      (@C5_time_recomputed Example.host Example.page
         (Example.request "POST" "/api/items" []
            (Some (Example.submission (VStr (str "5")) (rating 2) " Acme ")))
         Example.env Example.world
         (Example.submission (VStr (str "5")) (rating 2) " Acme ") _) _ _)).
    + repeat split.
    + repeat split.
    + repeat split; discriminate.
  - refine (proj1 (proj2 (proj2 (proj2 (proj2
      (@C5_time_recomputed Example.host Example.page
         (Example.request "POST" "/api/items" []
            (Some (Example.submission (VStr (str "5")) (rating 2) " Acme ")))
         Example.env Example.world
         (Example.submission (VStr (str "5")) (rating 2) " Acme ") _)))))).
    repeat split.
Defined.

(** C7 at the three sample records. *)
Lemma C7_witness :
  Worker.summarize (host := Example.host) Example.records
  = [ {| Worker.customerName := str "Acme"; Worker.count := 1 |};
      {| Worker.customerName := str "Zenith"; Worker.count := 2 |} ]
  /\ fst (Worker.fetch (host := Example.host) Example.page
            (Example.request "GET" "/api/customers" [] None)
            Example.env Example.world)
     = Returned
         (reply (host := Example.host)
            (VObj [field "ok" (VBool true);
                   field "customers"
                     (VArr [customer_row (str "Acme") 1;
                            customer_row (str "Zenith") 2])])
            200).
Proof.
  split; [reflexivity|].
  refine (f_equal fst (proj1
    (@C7_customer_summary Example.host Example.page
       (Example.request "GET" "/api/customers" [] None)
       Example.env Example.world
       {| store_status := 200;
          store_text := Some (Example.print_json Example.print_number
                                (VArr Example.records)) |}
       Example.records _ _ _ _ _ _ _ _ _ _) _)); try reflexivity.
  - exact compare_units_consistent.
  - exact compare_units_transitive.
Defined.

(** C7, the claim as stated fails: when one of the fetched records has a
    [customerName] that does not convert to a string, the summary is not
    returned at all. *)
Lemma C7_counterexample :
  let res :=
    {| store_status := 200;
       store_text := Some (Example.print_json Example.print_number
                             (VArr Example.odd_records)) |} in
  ok res = true
  /\ Worker.store_data (host := Example.host) res = VArr Example.odd_records
  /\ Worker.fetch (host := Example.host) Example.page
       (Example.request "GET" "/api/customers" [] None)
       Example.env Example.odd_world
     = (Threw (Error (str "Cannot convert object to primitive value")),
        [customers_call (host := Example.host) Example.env]).
Proof. repeat split. Qed.

(** C9 at a request that filters on a padded customer name. *)
Lemma C9_witness :
  snd (Worker.fetch (host := Example.host) Example.page
         (Example.request "GET" "/api/items"
            [(str "customerName", str " Acme "); (str "category", str " ")] None)
         Example.env Example.world)
  = [list_call (host := Example.host) Example.env
       (Example.request "GET" "/api/items"
          [(str "customerName", str " Acme "); (str "category", str " ")] None)].
Proof.
  refine (f_equal snd (proj1
    (@C9_list_query Example.host Example.page
       (Example.request "GET" "/api/items"
          [(str "customerName", str " Acme "); (str "category", str " ")] None)
       Example.env Example.world
       {| store_status := 200;
          store_text := Some (Example.print_json Example.print_number
                                (VArr Example.records)) |}
       _ _ _ _ _ _))); reflexivity.
Defined.

(** C10 at the body [0]. *)
Lemma C10_witness :
  Worker.fetch (host := Example.host) Example.page
    (Example.request "POST" "/api/items" [] (Some (VNum 0%float)))
    Example.env Example.world
  = (Returned (error_response (host := Example.host) "Invalid JSON body" 400), []).
Proof.
  refine (proj1 (@C10_falsy_body_rejected Example.host Example.page
                   (Example.request "POST" "/api/items" [] (Some (VNum 0%float)))
                   Example.env Example.world (VNum 0%float) _ _ _)).
  - reflexivity.
  - repeat split.
  - reflexivity.
Defined.

(** C6 at a request to [/api/items] that carries a wrong token. *)
Lemma C6_witness :
  Gated.fetch (host := Example.host) Example.page
    (Worker.handleItems (host := Example.host))
    {| method := str "DELETE"; pathname := str "/api/items/42";
       searchParams := []; headers := [(str "X-App-Token", str "guess")];
       json_body := None |}
    ((str "APP_SHARED_TOKEN", str "s3cret") :: Example.env) Example.world
  = (Returned (error_response (host := Example.host) "Unauthorized" 401), []).
Proof.
  refine (proj1 (@C6_token_gate Example.host Example.page
                   (Worker.handleItems (host := Example.host))
                   {| method := str "DELETE"; pathname := str "/api/items/42";
                      searchParams := [];
                      headers := [(str "X-App-Token", str "guess")];
                      json_body := None |}
                   ((str "APP_SHARED_TOKEN", str "s3cret") :: Example.env)
                   Example.world) (str "s3cret") _ _ _ _).
  - reflexivity.
  - discriminate.
  - discriminate.
  - reflexivity.
Defined.

(** C6, the claim as stated fails: with the secret configured and no
    token sent, [GET /api/customers] is served by the latest revision
    (status 200, after a call to the store), and the gated revisions
    answer it with the plain 404; neither answers 401. *)
Lemma C6_counterexample :
  let env := (str "APP_SHARED_TOKEN", str "s3cret") :: Example.env in
  let req := Example.request "GET" "/api/customers" [] None in
  lookup (str "APP_SHARED_TOKEN") env = Some (str "s3cret")
  /\ headers_get (headers req) "x-app-token" = None
  /\ startsWith (pathname req) (str "/api/") = true
  /\ (exists r : Response,
        Worker.fetch (host := Example.host) Example.page req env Example.world
        = (Returned r, [customers_call (host := Example.host) env])
        /\ status r = 200)
  /\ (forall handleItems : Request -> Env -> Eff Response,
        Gated.fetch (host := Example.host) Example.page handleItems req env
          Example.world
        = (Returned plain_not_found, [])).
Proof.
  repeat split.
  exists (reply (host := Example.host)
            (VObj [field "ok" (VBool true);
                   field "customers"
                     (VArr [customer_row (str "Acme") 1;
                            customer_row (str "Zenith") 2])])
            200).
  split; reflexivity.
Qed.

(** C9, the claim as stated fails: with neither [customerName] nor
    [category] given, a [customerId] parameter still puts a filter object
    into the query. *)
Lemma C9_counterexample :
  let req := Example.request "GET" "/api/items" [(str "customerId", str "abc")] None in
  trim (search_param req "customerName") = []
  /\ trim (search_param req "category") = []
  /\ request_filter req = [field "customerId" (VStr (str "abc"))]
  /\ map call_url
       (snd (Worker.fetch (host := Example.host) Example.page req Example.env
               Example.world))
     = [str "https://db.example/rest/matrix?q=%7B%22customerId%22%3A%22abc%22%7D&sort=%7B%22createdAt%22%3A-1%7D"].
Proof. repeat split. Qed.

(** * Further properties of the code *)

(** ** Strings *)

Lemma flat_map_compose {A B C : Type} (f : A -> list B) (g : B -> list C)
    (l : list A) :
  flat_map g (flat_map f l) = flat_map (fun x => flat_map g (f x)) l.
Proof.
  induction l as [|x l IH]; simpl; [reflexivity|].
  rewrite flat_map_app, IH. reflexivity.
Qed.

Lemma escape_unit_passes (c : N) :
  replace_all 34 (str "&quot;")
    (replace_all 62 (str "&gt;")
       (replace_all 60 (str "&lt;") (replace_all 38 (str "&amp;") [c])))
  = escape_unit c.
Proof.
  unfold escape_unit, replace_all. simpl flat_map at 4.
  destruct (N.eqb c 38) eqn:E38; [reflexivity|]. simpl.
  destruct (N.eqb c 60) eqn:E60; [reflexivity|]. simpl.
  destruct (N.eqb c 62) eqn:E62; [reflexivity|]. simpl.
  destruct (N.eqb c 34) eqn:E34; reflexivity.
Qed.

Lemma escape_unit_no_markup (c : N) :
  Forall (fun x => markup x = false) (escape_unit c).
Proof.
  unfold escape_unit.
  destruct (N.eqb c 38) eqn:E38; [repeat constructor|].
  destruct (N.eqb c 60) eqn:E60; [repeat constructor|].
  destruct (N.eqb c 62) eqn:E62; [repeat constructor|].
  destruct (N.eqb c 34) eqn:E34; [repeat constructor|].
  constructor; [|constructor]. unfold markup. rewrite E60, E62, E34. reflexivity.
Qed.

Lemma Forall_flat_map {A B : Type} (P : B -> Prop) (f : A -> list B) (l : list A) :
  (forall x, Forall P (f x)) -> Forall P (flat_map f l).
Proof.
  intros H. induction l as [|x l IH]; simpl; [constructor|].
  apply Forall_app. split; [apply H|exact IH].
Qed.

Lemma eqb_sym_units (a b : jsstring) : Str.eqb a b = Str.eqb b a.
Proof.
  destruct (Str.eqb b a) eqn:E.
  - apply eqb_eq in E. subst. apply eqb_refl.
  - apply eqb_neq. apply eqb_neq in E. congruence.
Qed.

Section FurtherClaims.
Context {host : Host}.

Lemma escapeHtml_one_pass (v : value) :
  Worker.escapeHtml v = flat_map escape_unit (ToString v).
Proof.
  unfold Worker.escapeHtml.
  induction (ToString v) as [|c s IH]; [reflexivity|].
  change (c :: s) with ([c] ++ s).
  unfold replace_all in *. rewrite !flat_map_app, IH.
  f_equal. etransitivity; [exact (escape_unit_passes c)|].
  simpl. rewrite app_nil_r. reflexivity.
Qed.

(** X1. [escapeHtml] is the replacement, unit by unit, of [&], [<], [>]
    and the double quote by their entities: the four passes never touch
    what an earlier pass wrote.  Its result holds no [<], [>] or double
    quote, and a text without the four units comes back unchanged. *)
Theorem escapeHtml_safe (v : value) :
  Worker.escapeHtml v = flat_map escape_unit (ToString v)
  /\ Forall (fun c => markup c = false) (Worker.escapeHtml v)
  /\ (Forall (fun c => c <> 38%N /\ markup c = false) (ToString v) ->
      Worker.escapeHtml v = ToString v).
Proof.
  split; [apply escapeHtml_one_pass|]. split.
  - rewrite escapeHtml_one_pass. apply Forall_flat_map.
    exact escape_unit_no_markup.
  - rewrite escapeHtml_one_pass. intros H.
    induction H as [|c s [H38 Hm] _ IH]; [reflexivity|].
    simpl. rewrite IH. unfold escape_unit, markup in *.
    apply N.eqb_neq in H38. rewrite H38.
    apply orb_false_iff in Hm as [Hm H34].
    apply orb_false_iff in Hm as [H60 H62].
    rewrite H60, H62, H34. reflexivity.
Qed.





(** ** Reaching the store *)

Lemma missing_settings_spec (env : Env) (k : string) :
  In k (missing_settings env)
  <-> In k store_settings
      /\ (lookup (str k) env = None \/ lookup (str k) env = Some []).
Proof.
  unfold missing_settings. rewrite filter_In. unfold env_get.
  split; intros [Hk H]; (split; [exact Hk|]).
  - destruct (lookup (str k) env) as [[|c s]|]; simpl in H;
      [right; reflexivity|discriminate H|left; reflexivity].
  - destruct H as [-> | ->]; reflexivity.
Qed.

(** X3. [restdbFetch] contacts the store exactly when none of the three
    settings is missing, a setting bound to the empty text counting as
    missing: then it makes the one call, and otherwise it makes none and
    throws the error that lists the missing settings in the order base,
    collection, key. *)
Theorem restdbFetch_contacts_store (env : Env) (path : jsstring)
    (init : Worker.FetchInit) (w : World) :
  (missing_settings env = [] ->
   snd (Worker.restdbFetch env path init w) = [Worker.store_call env path init])
  /\ (missing_settings env <> [] ->
      Worker.restdbFetch env path init w = (Threw (missing_error env), []))
  /\ (forall k : string,
        In k (missing_settings env)
        <-> In k store_settings
            /\ (lookup (str k) env = None \/ lookup (str k) env = Some [])).
Proof.
  split; [|split; [|apply missing_settings_spec]].
  - intros H. unfold Worker.restdbFetch, bind, Worker.requireEnv.
    change (filter (fun k => negb (truthy (env_get env k)))
              ["RESTDB_BASE"; "RESTDB_COLLECTION"; "RESTDB_API_KEY"]%string)
      with (missing_settings env).
    rewrite H. unfold ret at 1, global_fetch.
    destruct (upstream w (Worker.store_call env path init)); reflexivity.
  - intros H. unfold Worker.restdbFetch, bind, Worker.requireEnv, missing_error.
    change (filter (fun k => negb (truthy (env_get env k)))
              ["RESTDB_BASE"; "RESTDB_COLLECTION"; "RESTDB_API_KEY"]%string)
      with (missing_settings env).
    destruct (missing_settings env) as [|k ks]; [contradiction|]. reflexivity.
Qed.

Lemma strip_added_slash (b : jsstring) : strip_trailing_slash (b ++ [47%N]) = b.
Proof. unfold strip_trailing_slash. rewrite rev_unit. simpl. apply rev_involutive. Qed.

Lemma strip_no_slash (b : jsstring) :
  last b 0%N <> 47%N -> strip_trailing_slash b = b.
Proof.
  unfold strip_trailing_slash.
  destruct b as [|c b] using rev_ind; [reflexivity|].
  rewrite last_last, rev_unit. intros H.
  apply N.eqb_neq in H. rewrite H. reflexivity.
Qed.

(** The latest revision reads [RESTDB_BASE] through its truthiness and
    through its text without one trailing slash. *)
Lemma fetch_reads_base (page : Env -> jsstring) (req : Request) (env env' : Env) :
  page env' = page env ->
  truthy (env_get env' "RESTDB_BASE") = truthy (env_get env "RESTDB_BASE") ->
  strip_trailing_slash (ToString (env_get env' "RESTDB_BASE"))
  = strip_trailing_slash (ToString (env_get env "RESTDB_BASE")) ->
  env_get env' "RESTDB_COLLECTION" = env_get env "RESTDB_COLLECTION" ->
  env_get env' "RESTDB_API_KEY" = env_get env "RESTDB_API_KEY" ->
  Worker.fetch page req env' = Worker.fetch page req env.
Proof.
  intros Hpage Ht Hs H2 H3.
  unfold Worker.fetch, Worker.handleApi, Worker.handleItems, Worker.handleCustomers,
    Worker.restdbFetch, Worker.requireEnv, Worker.store_call.
  cbn [filter].
  rewrite Hpage, Ht, Hs, H2, H3. reflexivity.
Qed.

(** X4. A trailing slash on the configured base address makes no
    difference: with a base that is not empty and does not end in a slash,
    every request is answered in the same way, through the same store
    call, whether the setting holds the base or the base followed by one
    slash. *)
Theorem base_trailing_slash_ignored (page : Env -> jsstring) (req : Request)
    (env env' : Env) (w : World) (base : jsstring) :
  lookup (str "RESTDB_BASE") env = Some base ->
  base <> [] ->
  last base 0%N <> 47%N ->
  lookup (str "RESTDB_BASE") env' = Some (base ++ [47%N]) ->
  (forall k : jsstring, k <> str "RESTDB_BASE" -> lookup k env' = lookup k env) ->
  page env' = page env ->
  Worker.fetch page req env' w = Worker.fetch page req env w.
Proof.
  intros Hb Hne Hlast Hb' Hother Hpage.
  rewrite (@fetch_reads_base page req env env'); try assumption; try reflexivity.
  - unfold env_get. rewrite Hb, Hb'. destruct base; [contradiction|reflexivity].
  - unfold env_get. rewrite Hb, Hb'. simpl ToString.
    rewrite strip_added_slash, strip_no_slash by assumption. reflexivity.
  - unfold env_get. rewrite Hother by discriminate. reflexivity.
  - unfold env_get. rewrite Hother by discriminate. reflexivity.
Qed.

(** ** Paths *)

Lemma split_no_separator (s : jsstring) :
  Forall (fun c => c <> 47%N) s -> split 47 s = [s].
Proof.
  induction 1 as [|c s Hc _ IH]; [reflexivity|].
  simpl. apply N.eqb_neq in Hc. rewrite Hc, IH. reflexivity.
Qed.

Lemma parts_of_record_path (req : Request) (id : jsstring) :
  pathname req = str "/api/items/" ++ id ->
  segment id ->
  path_parts req = [str "api"; str "items"; id].
Proof.
  intros Hp [Hne Hid]. unfold path_parts. rewrite Hp.
  simpl. rewrite (split_no_separator Hid). simpl.
  destruct id; [contradiction|reflexivity].
Qed.

Lemma parts_of_collection_path (req : Request) (suffix rest : jsstring) :
  pathname req = str "/api/items" ++ suffix ++ rest ->
  Forall (fun c => c <> 47%N) suffix ->
  rest = [] \/ rest = [47%N] ->
  nth_error (path_parts req) 2 = None.
Proof.
  intros Hp Hs Hrest. unfold path_parts. rewrite Hp.
  assert (E : split 47 (suffix ++ rest)
              = if is_empty rest then [suffix] else [suffix; []]).
  { clear Hp. induction Hs as [|c s Hc _ IH]; simpl.
    - destruct Hrest as [-> | ->]; reflexivity.
    - apply N.eqb_neq in Hc. rewrite Hc, IH.
      destruct (is_empty rest); reflexivity. }
  simpl. rewrite E. destruct (is_empty rest); reflexivity.
Qed.

(** The items handler reads the path through its third segment only. *)
Lemma handleItems_reads_path (req req' : Request) (env : Env) :
  method req' = method req ->
  searchParams req' = searchParams req ->
  json_body req' = json_body req ->
  nth_error (path_parts req') 2 = nth_error (path_parts req) 2 ->
  Worker.handleItems req' env = Worker.handleItems req env.
Proof.
  intros Hm Hs Hb Hid. unfold Worker.handleItems, search_param.
  rewrite Hm, Hs, Hb, Hid. reflexivity.
Qed.

Lemma route_items_prefix (page : Env -> jsstring) (req : Request) (env : Env)
    (rest : jsstring) :
  pathname req = str "/api/items" ++ rest ->
  Worker.fetch page req env = Worker.handleItems req env.
Proof.
  intros H. unfold Worker.fetch, Worker.handleApi. rewrite H.
  assert (E1 : Str.eqb (str "/api/items" ++ rest) (str "/") = false)
    by reflexivity.
  assert (E2 : startsWith (str "/api/items" ++ rest) (str "/api/") = true)
    by reflexivity.
  assert (E3 : startsWith (str "/api/items" ++ rest) (str "/api/items") = true)
    by (destruct rest; reflexivity).
  rewrite E1, E2, E3. reflexivity.
Qed.

(** ** Deleting a record *)

(** X5. With the store configured, [DELETE /api/items/<id>] makes the one
    call that deletes [id] (percent-encoded) in the store and passes the
    answer on: [{ok: true}] with status 200 on a success status, and
    otherwise the store's own status with the store's data as the error --
    the handler does not look at the identifier itself, so an unknown one
    is answered with whatever the store says.  A status that a response
    with a body may not carry (304, or one outside 200 to 599) cannot be
    passed on: the handler then ends in the error of [new Response]. *)
Theorem delete_relays_store (page : Env -> jsstring) (req : Request) (env : Env)
    (w : World) (id : jsstring) (res : StoreResponse) :
  configured env "RESTDB_BASE" ->
  configured env "RESTDB_COLLECTION" ->
  configured env "RESTDB_API_KEY" ->
  method req = str "DELETE" ->
  pathname req = str "/api/items/" ++ id ->
  segment id ->
  upstream w (delete_call env id) = Fetched res ->
  Worker.fetch page req env w
  = (relayed res [] (Worker.store_data res), [delete_call env id])
  /\ (ok res = true ->
      fst (Worker.fetch page req env w)
      = Returned (reply (VObj [field "ok" (VBool true)]) 200))
  /\ (ok res = false ->
      status_accepted (store_status res) = true ->
      fst (Worker.fetch page req env w)
      = Returned (reply (VObj [field "ok" (VBool false);
                               field "error" (Worker.store_data res)])
                    (store_status res)))
  /\ (ok res = false ->
      status_accepted (store_status res) = false ->
      fst (Worker.fetch page req env w)
      = Threw (Error (invalid_status (store_status res))))
  /\ status_accepted 304 = false
  /\ status_accepted 404 = true.
Proof.
  intros Hbase Hcfg Hkey Hm Hp Hid Hup.
  assert (E : Worker.fetch page req env w
              = (relayed res [] (Worker.store_data res), [delete_call env id])).
  { destruct (collection_name Hcfg) as [s [Es Hs]].
    rewrite (route_items_prefix page req env (rest := str "/" ++ id)) by exact Hp.
    unfold Worker.handleItems.
    rewrite Es, Hs, (parts_of_record_path req Hp Hid), Hm.
    change (Str.eqb (str "DELETE") (str "GET")) with false.
    change (Str.eqb (str "DELETE") (str "POST")) with false.
    change (Str.eqb (str "DELETE") (str "DELETE")) with true.
    cbn [andb negb nth_error].
    unfold delete_call, collection in Hup |- *. rewrite Es in Hup |- *.
    rewrite (bind_returned _ _ w (restdbFetch_answer _ _ w Hbase Hcfg Hkey Hup)).
    cbv beta iota. unfold relayed.
    destruct (ok res); cbn [negb]; rewrite json_call_answers; reflexivity. }
  split; [exact E|].
  split; [|split; [|split; [|split; reflexivity]]].
  - intros Hok. rewrite E. unfold relayed. rewrite Hok. reflexivity.
  - intros Hok Hs. rewrite E. unfold relayed, answered. rewrite Hok, Hs. reflexivity.
  - intros Hok Hs. rewrite E. unfold relayed, answered. rewrite Hok, Hs. reflexivity.
Qed.

(** ** Methods and routes *)

(** X6. With the collection configured, the items handler answers 405
    [Method not allowed], without any call to the store, to every method
    other than GET and POST on [/api/items] and to every method other than
    DELETE on [/api/items/<id>]: a single record cannot be read or
    replaced. *)
Theorem items_method_not_allowed (page : Env -> jsstring) (req : Request)
    (env : Env) (w : World) :
  configured env "RESTDB_COLLECTION" ->
  (pathname req = str "/api/items" ->
   method req <> str "GET" -> method req <> str "POST" ->
   Worker.fetch page req env w = (Returned method_not_allowed, []))
  /\ (forall id : jsstring,
        pathname req = str "/api/items/" ++ id ->
        segment id ->
        method req <> str "DELETE" ->
        Worker.fetch page req env w = (Returned method_not_allowed, [])).
Proof.
  intros Hcfg. destruct (collection_name Hcfg) as [s [Es Hs]]. split.
  - intros Hp Hget Hpost. rewrite (route_items _ _ _ Hp). unfold Worker.handleItems.
    apply eqb_neq in Hget, Hpost.
    rewrite Es, Hs, (no_id _ Hp), Hget, Hpost. cbn [andb negb].
    rewrite andb_false_r. reflexivity.
  - intros id Hp Hid Hdel.
    rewrite (route_items_prefix page req env (rest := str "/" ++ id)) by exact Hp.
    unfold Worker.handleItems. apply eqb_neq in Hdel.
    rewrite Es, Hs, (parts_of_record_path req Hp Hid), Hdel.
    cbn [nth_error andb negb]. rewrite !andb_false_r. reflexivity.
Qed.

(** X7. Paths the entry point does not know get a 404 without any call
    to the store, whatever the method and the configuration: the JSON
    answer [{ok: false, error: "Not Found"}] under [/api/] (every path
    there that is not [/api/customers] and does not start with
    [/api/items]), and the plain text [Not Found] elsewhere. *)
Theorem unknown_path_not_found (page : Env -> jsstring) (req : Request)
    (env : Env) (w : World) :
  (startsWith (pathname req) (str "/api/") = true ->
   startsWith (pathname req) (str "/api/items") = false ->
   pathname req <> str "/api/customers" ->
   Worker.fetch page req env w = (Returned (error_response "Not Found" 404), []))
  /\ (pathname req <> str "/" ->
      startsWith (pathname req) (str "/api/") = false ->
      Worker.fetch page req env w = (Returned plain_not_found, [])).
Proof.
  split.
  - intros Hapi Hitems Hcust. unfold Worker.fetch, Worker.handleApi.
    assert (Hroot : Str.eqb (pathname req) (str "/") = false).
    { apply eqb_neq. intros E. rewrite E in Hapi. discriminate Hapi. }
    apply eqb_neq in Hcust. rewrite Hroot, Hapi, Hitems, Hcust. reflexivity.
  - intros Hroot Hapi. unfold Worker.fetch.
    apply eqb_neq in Hroot. rewrite Hroot, Hapi. reflexivity.
Qed.

(** X8. The items route is matched by prefix: a request whose path is
    [/api/items] followed by any text without a slash, with or without one
    closing slash (such as [/api/items/] or [/api/items-old]), is handled
    exactly as the same request to [/api/items]. *)
Theorem items_route_by_prefix (page : Env -> jsstring) (req : Request)
    (env : Env) (suffix rest : jsstring) :
  pathname req = str "/api/items" ++ suffix ++ rest ->
  Forall (fun c => c <> 47%N) suffix ->
  rest = [] \/ rest = [47%N] ->
  Worker.fetch page req env
  = Worker.fetch page (with_pathname req (str "/api/items")) env.
Proof.
  intros Hp Hs Hrest.
  rewrite (route_items_prefix page req env (rest := suffix ++ rest)) by exact Hp.
  rewrite (route_items page (with_pathname req (str "/api/items")) env eq_refl).
  symmetry. apply handleItems_reads_path; try reflexivity.
  rewrite (parts_of_collection_path req Hp Hs Hrest). reflexivity.
Qed.

(** ** The customer summary, further *)

(** X9. On [/api/customers] every method other than GET is answered 405
    without any call to the store, whatever the configuration.  A GET,
    with the store configured, makes the one projected call.  A failure
    is passed on with the store's data as the error and the store's
    status, when that is a status a response with a body may carry, and
    ends the handler in the error of [new Response] when it is not.  On a
    success status, data that is not an array (an empty body included)
    gives the empty list of customers. *)
Theorem customers_edge_cases (page : Env -> jsstring) (req : Request)
    (env : Env) (w : World) :
  pathname req = str "/api/customers" ->
  (method req <> str "GET" ->
   Worker.fetch page req env w = (Returned method_not_allowed, []))
  /\ (forall res : StoreResponse,
        method req = str "GET" ->
        configured env "RESTDB_BASE" ->
        configured env "RESTDB_COLLECTION" ->
        configured env "RESTDB_API_KEY" ->
        upstream w (customers_call env) = Fetched res ->
        (ok res = false ->
         status_accepted (store_status res) = true ->
         Worker.fetch page req env w
         = (Returned (reply (VObj [field "ok" (VBool false);
                                   field "error" (Worker.store_data res)])
                        (store_status res)),
            [customers_call env]))
        /\ (ok res = false ->
            status_accepted (store_status res) = false ->
            Worker.fetch page req env w
            = (Threw (Error (invalid_status (store_status res))),
               [customers_call env]))
        /\ (ok res = true -> isArray (Worker.store_data res) = false ->
            Worker.fetch page req env w
            = (Returned (reply (VObj [field "ok" (VBool true);
                                      field "customers" (VArr [])]) 200),
               [customers_call env]))).
Proof.
  intros Hp. rewrite (route_customers _ _ _ Hp). unfold Worker.handleCustomers.
  split.
  - intros Hm. apply eqb_neq in Hm. rewrite Hm. reflexivity.
  - intros res Hm Hbase Hcfg Hkey Hup. rewrite Hm.
    change (Str.eqb (str "GET") (str "GET")) with true. cbn [negb].
    unfold customers_call, collection in Hup |- *.
    rewrite (bind_returned _ _ w (restdbFetch_answer _ _ w Hbase Hcfg Hkey Hup)).
    cbv beta iota. split; [|split].
    + intros Hok Hs. rewrite Hok. cbn [negb]. rewrite json_call_answers.
      unfold answered. rewrite Hs. reflexivity.
    + intros Hok Hs. rewrite Hok. cbn [negb]. rewrite json_call_answers.
      unfold answered. rewrite Hs. reflexivity.
    + intros Hok Harr. rewrite Hok. cbn [negb].
      destruct (Worker.store_data res); try reflexivity. discriminate Harr.
Qed.

(** The sum of the counts held by a counting map. *)
Lemma total_of_map (m : CountMap) :
  total (map (fun e => {| Worker.customerName := fst e; Worker.count := snd e |}) m)
  = fold_right (fun e acc => snd e + acc) 0 m.
Proof. induction m as [|e m IH]; simpl; [reflexivity|]. rewrite IH. reflexivity. Qed.

Lemma total_perm (l l' : list Worker.Customer) :
  Permutation l l' -> total l = total l'.
Proof. induction 1; simpl; lia. Qed.

Lemma sum_map_set (k : jsstring) (v : Z) (m : CountMap) :
  fold_right (fun e acc => snd e + acc) 0 (map_set k v m)
  = fold_right (fun e acc => snd e + acc) 0 m - tally m k + v.
Proof.
  unfold tally. induction m as [|[k' v'] m IH]; simpl; [lia|].
  destruct (Str.eqb k' k); simpl; [lia|]. rewrite IH. lia.
Qed.

Lemma sum_count_record (m : CountMap) (it : value) :
  fold_right (fun e acc => snd e + acc) 0 (Worker.count_record m it)
  = fold_right (fun e acc => snd e + acc) 0 m
    + (if is_empty (Worker.record_name it) then 0 else 1).
Proof.
  unfold Worker.count_record.
  destruct (is_empty (Worker.record_name it)); [lia|].
  rewrite sum_map_set. unfold tally. lia.
Qed.

Lemma sum_fold_count (items : list value) (m : CountMap) :
  fold_right (fun e acc => snd e + acc) 0 (fold_left Worker.count_record items m)
  = fold_right (fun e acc => snd e + acc) 0 m + Z.of_nat (List.length (named items)).
Proof.
  revert m. induction items as [|it items IH]; simpl; intros m; [lia|].
  rewrite IH, sum_count_record. unfold named in *.
  destruct (is_empty (Worker.record_name it)); simpl List.length; lia.
Qed.

Lemma total_at_least_length (l : list Worker.Customer) :
  (forall c, In c l -> 0 < Worker.count c) ->
  Z.of_nat (List.length l) <= total l.
Proof.
  induction l as [|c l IH]; simpl; intros H; [lia|].
  assert (0 < Worker.count c) by (apply H; left; reflexivity).
  assert (Z.of_nat (List.length l) <= total l) by (apply IH; intros; apply H; right; assumption).
  lia.
Qed.

(** X10. The summary accounts for every named record exactly once: the
    counts of its rows add up to the number of fetched records that bear a
    name, so there are never more rows than such records, and no records
    give no rows. *)
Theorem summary_counts_add_up (items : list value) :
  total (Worker.summarize items) = Z.of_nat (List.length (named items))
  /\ (List.length (Worker.summarize items) <= List.length (named items))%nat
  /\ Worker.summarize [] = [].
Proof.
  assert (E : total (Worker.summarize items) = Z.of_nat (List.length (named items))).
  { rewrite (total_perm (summarize_perm items)), total_of_map, sum_fold_count.
    simpl. lia. }
  split; [exact E|]. split; [|reflexivity].
  assert (H : Z.of_nat (List.length (Worker.summarize items))
              <= total (Worker.summarize items)).
  { apply total_at_least_length. intros c Hc. apply summarize_in in Hc. tauto. }
  lia.
Qed.

(** ** Trimmed text *)

Lemma drop_ws_head (s : jsstring) (c : N) (r : jsstring) :
  drop_ws s = c :: r -> is_ws c = false.
Proof.
  induction s as [|x s IH]; simpl; [discriminate|].
  destruct (is_ws x) eqn:E; [exact IH|].
  intros H. injection H as <- _. exact E.
Qed.

Lemma drop_ws_suffix (s : jsstring) : exists p, s = p ++ drop_ws s.
Proof.
  induction s as [|x s [p IH]]; simpl; [exists []; reflexivity|].
  destruct (is_ws x).
  - exists (x :: p). simpl. rewrite <- IH. reflexivity.
  - exists []. reflexivity.
Qed.

Lemma trim_tidy (s : jsstring) : tidy (trim s).
Proof.
  unfold trim. split; intros c r H.
  - destruct (drop_ws_suffix (rev (drop_ws s))) as [p Hp].
    apply (f_equal (@rev N)) in Hp.
    rewrite rev_involutive, rev_app_distr, H in Hp.
    simpl in Hp. apply (drop_ws_head s Hp).
  - apply (f_equal (@rev N)) in H.
    rewrite rev_involutive, rev_unit in H.
    apply (drop_ws_head _ H).
Qed.

Lemma tidy_trim (s : jsstring) : tidy s -> trim s = s.
Proof.
  intros [Hhead Hlast]. unfold trim.
  assert (E1 : drop_ws s = s).
  { destruct s as [|c r]; [reflexivity|]. simpl.
    rewrite (Hhead c r eq_refl). reflexivity. }
  rewrite E1.
  assert (E2 : drop_ws (rev s) = rev s).
  { destruct (rev s) as [|c r] eqn:E; [reflexivity|]. simpl.
    apply (f_equal (@rev N)) in E. rewrite rev_involutive in E. simpl in E.
    rewrite (Hlast c (rev r) E). reflexivity. }
  rewrite E2. apply rev_involutive.
Qed.

Lemma trim_idempotent (s : jsstring) : trim (trim s) = trim s.
Proof. apply tidy_trim, trim_tidy. Qed.

Lemma tidy_nil : tidy [].
Proof.
  split; intros c r H; [discriminate H|].
  destruct r; discriminate H.
Qed.

Lemma S_tidy (v : value) : tidy (Worker.S v).
Proof. unfold Worker.S. destruct (is_nullish v); [apply tidy_nil|apply trim_tidy]. Qed.

Lemma or_null_S (v : value) : null_or_text (Worker.or_null (Worker.S v)).
Proof.
  unfold Worker.or_null, null_or_text.
  destruct (Worker.S v) as [|c r] eqn:E; [left; reflexivity|].
  right. exists (c :: r). split; [reflexivity|]. split; [discriminate|].
  rewrite <- E. apply S_tidy.
Qed.

(** X11. Whatever the body holds, the document built for the store has
    exactly the fourteen members of the source, in their order -- no other
    member of the body is carried over.  Its five text members are strings
    without white space at either end; [customerId] and the two dates are
    [null] or such a string that is not empty, never the empty string;
    [timeCode] and [timeLabel] are one of the four matching pairs; and
    [createdAt] and [updatedAt] are both the time of the request. *)
Theorem create_doc_shape (body : value) (now : jsstring) :
  let doc := Worker.create_doc body now in
  keys doc
  = map str ["customerName"; "customerId"; "category"; "solution"; "vendor";
             "notes"; "technicalFit"; "functionalFit"; "timeCode"; "timeLabel";
             "dateImplemented"; "contractExpiration"; "createdAt";
             "updatedAt"]%string
  /\ tidy_text (get doc "customerName")
  /\ tidy_text (get doc "category")
  /\ tidy_text (get doc "solution")
  /\ tidy_text (get doc "vendor")
  /\ tidy_text (get doc "notes")
  /\ null_or_text (get doc "customerId")
  /\ null_or_text (get doc "dateImplemented")
  /\ null_or_text (get doc "contractExpiration")
  /\ In (get doc "timeCode", get doc "timeLabel")
        [(VStr (str "I"), VStr (str "Invest"));
         (VStr (str "M"), VStr (str "Migrate"));
         (VStr (str "T"), VStr (str "Tolerate"));
         (VStr (str "E"), VStr (str "Eliminate"))]
  /\ get doc "createdAt" = VStr now
  /\ get doc "updatedAt" = VStr now.
Proof.
  intros doc. subst doc.
  split; [reflexivity|].
  repeat (split; [eexists; split; [reflexivity|apply S_tidy]|]).
  repeat (split; [apply or_null_S|]).
  split; [|split; reflexivity].
  change (get (Worker.create_doc body now) "timeCode")
    with (VStr (code (Worker.computeTIME
                        (VNum (ToNumber (get body "technicalFit")))
                        (VNum (ToNumber (get body "functionalFit")))))).
  change (get (Worker.create_doc body now) "timeLabel")
    with (VStr (label (Worker.computeTIME
                         (VNum (ToNumber (get body "technicalFit")))
                         (VNum (ToNumber (get body "functionalFit")))))).
  unfold Worker.computeTIME.
  destruct (js_ge _ 4), (js_ge _ 4); simpl; auto.
Qed.

(** ** From the page to the store *)

(** X12. What the page's Save handler posts is what the worker stores:
    when the handler gets as far as posting (the trimmed customer name and
    solution and the category are not empty), the two ratings are within 1
    to 5 and the category is not blank, the worker -- store configured --
    accepts the payload and makes the one call that posts the document,
    ending as the store's answer has it.  In the document the customer
    name, solution, vendor and notes are the form's texts trimmed, the
    category is the form's category trimmed, and [timeCode] and
    [timeLabel] are those of the preview the page showed for the form. *)
Theorem page_save_stored (page : Env -> jsstring) (req : Request) (env : Env)
    (w : World) (form : Page.Form) (payload : value) :
  Page.save form = Page.Post payload ->
  rating_ok (ToNumber (VStr (Page.technicalFit form))) = true ->
  rating_ok (ToNumber (VStr (Page.functionalFit form))) = true ->
  trim (Page.category form) <> [] ->
  configured env "RESTDB_BASE" ->
  configured env "RESTDB_COLLECTION" ->
  configured env "RESTDB_API_KEY" ->
  create_request req payload ->
  let doc := Worker.create_doc payload (now w) in
  Worker.fetch page req env w
  = (after_call w (create_call env doc)
       (fun res => relayed res [field "item" (Worker.store_data res)]
                     (Worker.store_data res)),
     [create_call env doc])
  /\ get doc "customerName" = VStr (trim (Page.customerName form))
  /\ get doc "category" = VStr (trim (Page.category form))
  /\ get doc "solution" = VStr (trim (Page.solution form))
  /\ get doc "vendor" = VStr (trim (Page.vendor form))
  /\ get doc "notes" = VStr (trim (Page.notes form))
  /\ get doc "timeCode" = VStr (code (Page.preview form))
  /\ get doc "timeLabel" = VStr (label (Page.preview form)).
Proof.
  intros Hsave Ht Hf Hcat Hbase Hcfg Hkey Hreq doc. subst doc.
  unfold Page.save in Hsave.
  destruct (is_empty (trim (Page.customerName form))) eqn:En; [discriminate|].
  destruct (is_empty (Page.category form)) eqn:Ec; [discriminate|].
  destruct (is_empty (trim (Page.solution form))) eqn:Es; [discriminate|].
  injection Hsave as <-.
  split.
  - apply create_accepted; try assumption; try reflexivity;
      unfold Worker.S; simpl; rewrite ?trim_idempotent;
      try (apply is_empty_false; assumption); assumption.
  - unfold Worker.create_doc, Worker.S. simpl. rewrite !trim_idempotent.
    repeat split.
Qed.

(** ** The earlier revisions *)

Section EarlierRevisions.
Variable fetch_failed : jsstring.
Variable body_used : jsstring.

Lemma earlier_guard_passes (env : Env) (w : World) :
  configured env "RESTDB_BASE" ->
  configured env "RESTDB_COLLECTION" ->
  configured env "RESTDB_API_KEY" ->
  Earlier.try_catch
    (_ <- Worker.requireEnv env
            ["RESTDB_BASE"; "RESTDB_COLLECTION"; "RESTDB_API_KEY"]%string ;;
     ret None)
    (fun e =>
       response <- Worker.json_call
                     (VObj [field "ok" (VBool false);
                            field "error" (VStr (Earlier.message fetch_failed e))])
                     500 ;;
       ret (Some response)) w
  = (Returned None, []).
Proof.
  intros H1 H2 H3. unfold Earlier.try_catch.
  rewrite (bind_returned _ _ w (requireEnv_complete w H1 H2 H3)). reflexivity.
Qed.

(** X13. In the earlier revisions a missing store setting never escapes
    the items handler: whatever the request, if one of the three settings
    is absent or empty the handler answers 500 with [{ok: false, error}],
    the error being the message that lists the missing settings, and makes
    no call to the store; with no shared secret configured, that is the
    answer of the entry point to every path that starts with
    [/api/items]. *)
Theorem earlier_missing_setting_answered (page : Env -> jsstring) (req : Request)
    (env : Env) (w : World) :
  missing_settings env <> [] ->
  let answer :=
    Worker.json
      (VObj [field "ok" (VBool false);
             field "error"
               (VStr (Earlier.message fetch_failed (missing_error env)))])
      500 in
  Earlier.handleItems fetch_failed body_used req env w = (Returned answer, [])
  /\ (startsWith (pathname req) (str "/api/items") = true ->
      truthy (env_get env "APP_SHARED_TOKEN") = false ->
      Gated.fetch page (Earlier.handleItems fetch_failed body_used) req env w
      = (Returned answer, [])).
Proof.
  intros Hmissing answer.
  assert (E : Earlier.handleItems fetch_failed body_used req env w
              = (Returned answer, [])).
  { subst answer. unfold Earlier.handleItems, Earlier.try_catch, bind,
      Worker.requireEnv, missing_error.
    change (filter (fun k => negb (truthy (env_get env k)))
              ["RESTDB_BASE"; "RESTDB_COLLECTION"; "RESTDB_API_KEY"]%string)
      with (missing_settings env).
    destruct (missing_settings env) as [|k ks]; [contradiction|]. reflexivity. }
  split; [exact E|].
  intros Hp Htoken. unfold Gated.fetch.
  assert (Hroot : Str.eqb (pathname req) (str "/") = false).
  { apply eqb_neq. intros E'. rewrite E' in Hp. discriminate Hp. }
  rewrite Hroot, Hp, Htoken. exact E.
Qed.


(** X15. In the earlier revisions a failed delete is answered with, as
    the error, the store's body as plain text -- it is not parsed -- or
    [Delete failed] when the body is empty or cannot be read, and with the
    store's status, when that is a status a response with a body may
    carry; when it is not, the handler ends in the error of
    [new Response]. *)
Theorem earlier_delete_failure (req : Request) (env : Env) (w : World)
    (id : jsstring) (res : StoreResponse) :
  configured env "RESTDB_BASE" ->
  configured env "RESTDB_COLLECTION" ->
  configured env "RESTDB_API_KEY" ->
  method req = str "DELETE" ->
  pathname req = str "/api/items/" ++ id ->
  segment id ->
  upstream w (earlier_delete_call env id) = Fetched res ->
  ok res = false ->
  let text := match store_text res with Some t => t | None => [] end in
  let error := VStr (if is_empty text then str "Delete failed" else text) in
  (status_accepted (store_status res) = true ->
   Earlier.handleItems fetch_failed body_used req env w
   = (Returned (reply (VObj [field "ok" (VBool false); field "error" error])
                  (store_status res)),
      [earlier_delete_call env id]))
  /\ (status_accepted (store_status res) = false ->
      Earlier.handleItems fetch_failed body_used req env w
      = (Threw (Error (invalid_status (store_status res))),
         [earlier_delete_call env id])).
Proof.
  intros Hbase Hcfg Hkey Hm Hp Hid Hup Hok text error. subst error text.
  assert (Hf : global_fetch (earlier_delete_call env id) w
               = (Returned res, [earlier_delete_call env id]))
    by (unfold global_fetch; rewrite Hup; reflexivity).
  assert (E : Earlier.handleItems fetch_failed body_used req env w
              = (answered
                   (VObj [field "ok" (VBool false);
                          field "error"
                            (VStr (if is_empty
                                        match store_text res with
                                        | Some t => t
                                        | None => []
                                        end
                                   then str "Delete failed"
                                   else match store_text res with
                                        | Some t => t
                                        | None => []
                                        end))])
                   (store_status res),
                 [earlier_delete_call env id])).
  { unfold Earlier.handleItems.
    rewrite (bind_returned _ _ w (earlier_guard_passes w Hbase Hcfg Hkey)).
    cbv beta iota. rewrite (parts_of_record_path req Hp Hid), Hm.
    change (Str.eqb (str "DELETE") (str "GET")) with false.
    change (Str.eqb (str "DELETE") (str "POST")) with false.
    change (Str.eqb (str "DELETE") (str "DELETE")) with true.
    cbn [andb negb nth_error].
    unfold earlier_delete_call, earlier_collection_url, earlier_headers in Hf.
    rewrite (bind_returned _ _ w Hf). cbv beta. rewrite Hok. cbn [negb].
    rewrite json_call_answers. reflexivity. }
  split; intros Hs; rewrite E; unfold answered; rewrite Hs; reflexivity.
Qed.

End EarlierRevisions.

(** X16. The gate of the earlier revisions lets a request to a path
    under [/api/items] through to the items handler, unchanged, when no
    secret is configured -- a secret bound to the empty text counts as
    none -- and when the [x-app-token] header, as [headers.get] reads it,
    is the secret, unit for unit.  The header name is matched whatever
    its case, its value is taken without the white space around it, and
    when the header occurs more than once, what is compared with the
    secret is all its values joined by a comma and a space. *)
Theorem gate_lets_through (page : Env -> jsstring)
    (handleItems : Request -> Env -> Eff Response)
    (req : Request) (env : Env) (w : World) :
  startsWith (pathname req) (str "/api/items") = true ->
  (lookup (str "APP_SHARED_TOKEN") env = None
   \/ lookup (str "APP_SHARED_TOKEN") env = Some [] ->
   Gated.fetch page handleItems req env w = handleItems req env w)
  /\ (forall secret : jsstring,
        lookup (str "APP_SHARED_TOKEN") env = Some secret ->
        headers_get (headers req) "x-app-token" = Some secret ->
        Gated.fetch page handleItems req env w = handleItems req env w)
  /\ (forall sent value : jsstring,
        lower sent = str "x-app-token" ->
        headers_get [(sent, value)] "x-app-token" = Some (header_value value))
  /\ (forall first second : jsstring,
        headers_get [(str "x-app-token", first); (str "x-app-token", second)]
          "x-app-token"
        = Some (header_value first ++ str ", " ++ header_value second)).
Proof.
  intros Hp.
  assert (Hroot : Str.eqb (pathname req) (str "/") = false).
  { apply eqb_neq. intros E. rewrite E in Hp. discriminate Hp. }
  split; [|split; [|split]].
  - unfold Gated.fetch, env_get. rewrite Hroot, Hp.
    intros [-> | ->]; reflexivity.
  - unfold Gated.fetch, Gated.header_or_empty, env_get. rewrite Hroot, Hp.
    intros secret -> ->. simpl ToString. rewrite eqb_refl.
    destruct (truthy (VStr secret)); reflexivity.
  - intros sent v H. apply headers_get_single. rewrite H. reflexivity.
  - intros first second. reflexivity.
Qed.

End FurtherClaims.

(** ** The further statements on concrete inputs *)

(** X1 at a category name, which holds none of the four units. *)
Lemma escapeHtml_safe_witness :
  Worker.escapeHtml (host := Example.host) (VStr (str "WAN/SD-WAN/SASE"))
  = str "WAN/SD-WAN/SASE".
Proof.
  refine (proj2 (proj2 (@escapeHtml_safe Example.host
                          (VStr (str "WAN/SD-WAN/SASE")))) _).
  repeat constructor; discriminate.
Defined.


(** X3 at a configuration whose key is bound to the empty text. *)
Lemma restdbFetch_contacts_store_witness :
  Worker.restdbFetch (host := Example.host)
    [(str "RESTDB_BASE", str "https://db.example");
     (str "RESTDB_COLLECTION", str "matrix");
     (str "RESTDB_API_KEY", str "")]
    (str "/rest/matrix")
    {| Worker.init_method := str "GET"; Worker.init_body := None;
       Worker.init_headers := [] |}
    Example.world
  = (Threw (Error (str "Missing env vars: RESTDB_API_KEY")), []).
Proof.
  refine (proj1 (proj2
    (@restdbFetch_contacts_store Example.host
       [(str "RESTDB_BASE", str "https://db.example");
        (str "RESTDB_COLLECTION", str "matrix");
        (str "RESTDB_API_KEY", str "")]
       (str "/rest/matrix")
       {| Worker.init_method := str "GET"; Worker.init_body := None;
          Worker.init_headers := [] |}
       Example.world)) _).
  discriminate.
Defined.

(** X4 at the sample configuration, whose base ends in a slash, and the
    same configuration without that slash. *)
Lemma base_trailing_slash_ignored_witness :
  Worker.fetch (host := Example.host) Example.page
    (Example.request "GET" "/api/customers" [] None) Example.env Example.world
  = Worker.fetch (host := Example.host) Example.page
      (Example.request "GET" "/api/customers" [] None)
      [(str "RESTDB_BASE", str "https://db.example");
       (str "RESTDB_COLLECTION", str "matrix");
       (str "RESTDB_API_KEY", str "k")]
      Example.world.
Proof.
  refine (@base_trailing_slash_ignored Example.host Example.page
            (Example.request "GET" "/api/customers" [] None)
            [(str "RESTDB_BASE", str "https://db.example");
             (str "RESTDB_COLLECTION", str "matrix");
             (str "RESTDB_API_KEY", str "k")]
            Example.env Example.world (str "https://db.example") _ _ _ _ _ _);
    try reflexivity; try discriminate.
  intros k Hk. apply eqb_neq in Hk. rewrite eqb_sym_units in Hk.
  unfold Example.env. cbn [lookup]. rewrite Hk. reflexivity.
Defined.

(** X5 at the record [a2], which the failing store does not know, and
    at a store that answers 304. *)
Lemma delete_relays_store_witness :
  Worker.fetch (host := Example.host) Example.page
    (Example.request "DELETE" "/api/items/a2" [] None) Example.env
    Example.failing
  = (Returned
       (reply (host := Example.host)
          (VObj [field "ok" (VBool false);
                 field "error" (VStr (str "Not found"))])
          404),
     [delete_call (host := Example.host) Example.env (str "a2")])
  /\ fst (Worker.fetch (host := Example.host) Example.page
            (Example.request "DELETE" "/api/items/a2" [] None) Example.env
            Example.unchanged)
     = Threw (Error (str "Invalid response status code")).
Proof.
  split.
  - refine (proj1 (@delete_relays_store Example.host Example.page
                     (Example.request "DELETE" "/api/items/a2" [] None)
                     Example.env Example.failing (str "a2")
                     {| store_status := 404;
                        store_text := Some (str "Not found") |}
                     _ _ _ _ _ _ _)); try reflexivity.
    split; [discriminate|repeat constructor; discriminate].
  - refine (proj1 (proj2 (proj2 (proj2
              (@delete_relays_store Example.host Example.page
                 (Example.request "DELETE" "/api/items/a2" [] None)
                 Example.env Example.unchanged (str "a2")
                 {| store_status := 304; store_text := Some [] |}
                 _ _ _ _ _ _ _)))) _ _); try reflexivity.
    split; [discriminate|repeat constructor; discriminate].
Defined.

(** X6 at a PUT to the collection. *)
Lemma items_method_not_allowed_witness :
  Worker.fetch (host := Example.host) Example.page
    (Example.request "PUT" "/api/items" [] None) Example.env Example.world
  = (Returned (method_not_allowed (host := Example.host)), []).
Proof.
  refine (proj1 (@items_method_not_allowed Example.host Example.page
                   (Example.request "PUT" "/api/items" [] None)
                   Example.env Example.world _) _ _ _);
    try reflexivity; discriminate.
Defined.

(** X7 at an unknown path under [/api/]. *)
Lemma unknown_path_not_found_witness :
  Worker.fetch (host := Example.host) Example.page
    (Example.request "GET" "/api/reports" [] None) [] Example.world
  = (Returned (error_response (host := Example.host) "Not Found" 404), []).
Proof.
  refine (proj1 (@unknown_path_not_found Example.host Example.page
                   (Example.request "GET" "/api/reports" [] None)
                   [] Example.world) _ _ _);
    try reflexivity; discriminate.
Defined.

(** X8 at [/api/items-old/]. *)
Lemma items_route_by_prefix_witness :
  Worker.fetch (host := Example.host) Example.page
    (Example.request "GET" "/api/items-old/" [] None) Example.env
  = Worker.fetch (host := Example.host) Example.page
      (Example.request "GET" "/api/items" [] None) Example.env.
Proof.
  refine (@items_route_by_prefix Example.host Example.page
            (Example.request "GET" "/api/items-old/" [] None)
            Example.env (str "-old") (str "/") _ _ _).
  - reflexivity.
  - repeat constructor; discriminate.
  - right. reflexivity.
Defined.

(** X9 at a POST to the summary, and at a store that answers the
    summary's call with 304. *)
Lemma customers_edge_cases_witness :
  Worker.fetch (host := Example.host) Example.page
    (Example.request "POST" "/api/customers" [] None) [] Example.world
  = (Returned (method_not_allowed (host := Example.host)), [])
  /\ Worker.fetch (host := Example.host) Example.page
       (Example.request "GET" "/api/customers" [] None) Example.env
       Example.unchanged
     = (Threw (Error (str "Invalid response status code")),
        [customers_call (host := Example.host) Example.env]).
Proof.
  split.
  - refine (proj1 (@customers_edge_cases Example.host Example.page
                     (Example.request "POST" "/api/customers" [] None)
                     [] Example.world _) _).
    + reflexivity.
    + discriminate.
  - refine (proj1 (proj2 (proj2 (@customers_edge_cases Example.host Example.page
                                   (Example.request "GET" "/api/customers" [] None)
                                   Example.env Example.unchanged _)
                            {| store_status := 304; store_text := Some [] |}
                            _ _ _ _ _)) _ _); reflexivity.
Defined.

(** X12 at the sample form. *)
Lemma page_save_stored_witness :
  get (Worker.create_doc (host := Example.host)
         (VObj [field "customerName" (VStr (str "Acme"));
                field "category" (VStr (str "AI"));
                field "solution" (VStr (str "Assistant"));
                field "vendor" (VStr (str ""));
                field "notes" (VStr (str "pilot"));
                field "technicalFit" (VNum 5%float);
                field "functionalFit" (VNum 2%float);
                field "dateImplemented" (VStr (str "2026-01-06"));
                field "contractExpiration" (VStr (str ""))])
         Example.clock)
    "timeCode"
  = VStr (code (Page.preview (host := Example.host) Example.form)).
Proof.
  refine (proj1 (proj2 (proj2 (proj2 (proj2 (proj2 (proj2
    (@page_save_stored Example.host Example.page
       (Example.request "POST" "/api/items" []
          (Some (VObj [field "customerName" (VStr (str "Acme"));
                       field "category" (VStr (str "AI"));
                       field "solution" (VStr (str "Assistant"));
                       field "vendor" (VStr (str ""));
                       field "notes" (VStr (str "pilot"));
                       field "technicalFit" (VNum 5%float);
                       field "functionalFit" (VNum 2%float);
                       field "dateImplemented" (VStr (str "2026-01-06"));
                       field "contractExpiration" (VStr (str ""))])))
       Example.env Example.world Example.form _
       _ _ _ _ _ _ _ _)))))))); try reflexivity; try discriminate.
  repeat split.
Defined.

(** X13 at a request to the earlier revisions with nothing configured. *)
Lemma earlier_missing_setting_answered_witness :
  Gated.fetch (host := Example.host) Example.page
    (Earlier.handleItems (host := Example.host) (str "fetch failed")
       (str "Body has already been used"))
    (Example.request "GET" "/api/items" [] None) [] Example.offline
  = (Returned
       (error_response (host := Example.host)
          "Missing env vars: RESTDB_BASE, RESTDB_COLLECTION, RESTDB_API_KEY" 500),
     []).
Proof.
  refine (proj2 (@earlier_missing_setting_answered Example.host
                   (str "fetch failed") (str "Body has already been used")
                   Example.page (Example.request "GET" "/api/items" [] None)
                   [] Example.offline _) _ _).
  - discriminate.
  - reflexivity.
  - reflexivity.
Defined.


(** X15 at a delete the store refuses with a text, and at one it
    answers with 304. *)
Lemma earlier_delete_failure_witness :
  Earlier.handleItems (host := Example.host) (str "fetch failed")
    (str "Body has already been used")
    (Example.request "DELETE" "/api/items/a2" [] None) Example.env
    Example.failing
  = (Returned
       (reply (host := Example.host)
          (VObj [field "ok" (VBool false);
                 field "error" (VStr (str "Not found"))])
          404),
     [earlier_delete_call (host := Example.host) Example.env (str "a2")])
  /\ Earlier.handleItems (host := Example.host) (str "fetch failed")
       (str "Body has already been used")
       (Example.request "DELETE" "/api/items/a2" [] None) Example.env
       Example.unchanged
     = (Threw (Error (str "Invalid response status code")),
        [earlier_delete_call (host := Example.host) Example.env (str "a2")]).
Proof.
  split.
  - refine (proj1 (@earlier_delete_failure Example.host
                     (str "fetch failed") (str "Body has already been used")
                     (Example.request "DELETE" "/api/items/a2" [] None)
                     Example.env Example.failing (str "a2")
                     {| store_status := 404; store_text := Some (str "Not found") |}
                     _ _ _ _ _ _ _ _) _); try reflexivity.
    split; [discriminate|repeat constructor; discriminate].
  - refine (proj2 (@earlier_delete_failure Example.host
                     (str "fetch failed") (str "Body has already been used")
                     (Example.request "DELETE" "/api/items/a2" [] None)
                     Example.env Example.unchanged (str "a2")
                     {| store_status := 304; store_text := Some [] |}
                     _ _ _ _ _ _ _ _) _); try reflexivity.
    split; [discriminate|repeat constructor; discriminate].
Defined.

(** X16 at a request that carries the secret under a header name written
    in capitals. *)
Lemma gate_lets_through_witness :
  Gated.fetch (host := Example.host) Example.page
    (Worker.handleItems (host := Example.host))
    {| method := str "GET"; pathname := str "/api/items";
       searchParams := []; headers := [(str "X-App-Token", str "s3cret")];
       json_body := None |}
    ((str "APP_SHARED_TOKEN", str "s3cret") :: Example.env) Example.world
  = Worker.handleItems (host := Example.host)
      {| method := str "GET"; pathname := str "/api/items";
         searchParams := []; headers := [(str "X-App-Token", str "s3cret")];
         json_body := None |}
      ((str "APP_SHARED_TOKEN", str "s3cret") :: Example.env) Example.world.
Proof.
  refine (proj1 (proj2 (@gate_lets_through Example.host Example.page
                          (Worker.handleItems (host := Example.host))
                          {| method := str "GET"; pathname := str "/api/items";
                             searchParams := [];
                             headers := [(str "X-App-Token", str "s3cret")];
                             json_body := None |}
                          ((str "APP_SHARED_TOKEN", str "s3cret") :: Example.env)
                          Example.world _)) (str "s3cret") _ _); reflexivity.
Defined.
